(** * Ranking the World: the rank selector of [app.py]

    A shallow embedding of the data-selection logic of the dashboard
    ([return_chart_data], its callers [create_countries_list] and
    [update_all]) together with the pandas operations it is built from,
    and the properties of the selector proved over that embedding.

    Conventions of the embedding.
    - A pandas [DataFrame] is a header (the column labels, in order) and a
      list of rows.  The row labels (the index) are not represented: no
      operation of the selector reads them.
    - [Value] is a finite number; it is a [Q] here, and only ever compared.
      [Rank] is an integer, a [Z] here: on a table whose ranks are 1..N
      the offsets the selector computes (r-5, r+4, N-10) stay far inside
      the 64-bit range of the column, so no wrap-around is written out.
      Missing values (NaN) are outside the data model.
    - An exception is a value of [exn]; a computation that may raise
      returns a [result].
    - The cells of a column have the type of the data model wherever the
      column is present: Country and Country_with_rank are strings, Value
      and Rank are numbers.  A frame whose Value column holds anything
      else (pandas dtype object, as in a frame built from a header alone)
      is not represented, and with it the [TypeError] that
      [nlargest]/[nsmallest] raise on such a column.
    - [sort_values] and [nlargest]/[nsmallest] are modelled as keeping
      rows with equal keys in their original relative order.  pandas
      documents that for [nlargest]/[nsmallest] only; its [sort_values]
      sorts with quicksort, which may reorder rows of equal key.  The
      properties below are therefore stated up to the order of rows of
      equal key, or under hypotheses that leave no equal keys. *)

From Stdlib Require Import ZArith QArith List String Sorted Permutation Lia Bool FinFun.
From stdpp Require Import gmap strings sorting.
Import ListNotations.

Local Open Scope Z_scope.

(* ================================================================== *)
(** ** Exceptions and fallible computations                            *)
(* ================================================================== *)

Inductive exn : Type :=
| KeyError (key : string)
| IndexError
| TypeError
| ReferenceError.

Inductive result (A : Type) : Type :=
| Ok (a : A)
| Err (e : exn).

Arguments Ok {A} a.
Arguments Err {A} e.

Definition bind {A B : Type} (m : result A) (k : A -> result B) : result B :=
  match m with
  | Ok a => k a
  | Err e => Err e
  end.

Notation "'let*' x ':=' m 'in' k" := (bind m (fun x => k))
  (at level 10, x name, m at level 100, k at level 200).

(* ================================================================== *)
(** ** Data model (spec section 3)                                     *)
(* ================================================================== *)

(** One row of a per-indicator table. *)
Record Row : Type := mkRow {
  Country : string;
  Value : Q;
  Rank : Z;
  Country_with_rank : string
}.

(** The columns the selector and its callers name. *)
Inductive col : Type := ColCountry | ColValue | ColRank | ColCountry_with_rank.

Definition col_name (c : col) : string :=
  match c with
  | ColCountry => "Country"
  | ColValue => "Value"
  | ColRank => "Rank"
  | ColCountry_with_rank => "Country_with_rank"
  end.

Record DataFrame : Type := mkDataFrame {
  columns : list string;
  rows : list Row
}.

(** [pd.DataFrame(columns=[...])]: a frame with a header and no rows. *)
Definition empty_frame (cols : list col) : DataFrame :=
  {| columns := map col_name cols; rows := [] |}.

(* ================================================================== *)
(** ** The pandas operations used by the selector                      *)
(* ================================================================== *)

Definition has_column (df : DataFrame) (label : string) : bool :=
  existsb (String.eqb label) (columns df).

(** Any access to a column by label raises [KeyError] when the label is
    not in the header. *)
Definition require_column (df : DataFrame) (c : col) : result unit :=
  if has_column df (col_name c) then Ok tt else Err (KeyError (col_name c)).

(** [df["Country"].values], [df["Rank"]], [df["Value"]],
    [df["Country_with_rank"]] *)
Definition getitem {A : Type} (df : DataFrame) (c : col) (field : Row -> A)
  : result (list A) :=
  let* _ := require_column df c in Ok (map field (rows df)).

(** Order of two rows on one column. *)
Definition col_leb (c : col) (a b : Row) : bool :=
  match c with
  | ColCountry => String.leb (Country a) (Country b)
  | ColValue => Qle_bool (Value a) (Value b)
  | ColRank => Z.leb (Rank a) (Rank b)
  | ColCountry_with_rank => String.leb (Country_with_rank a) (Country_with_rank b)
  end.

(** [nlargest]/[nsmallest] accept numeric columns only.  pandas decides
    that from the dtype of the column; the columns here are typed, so the
    name of the column decides. *)
Definition is_numeric (c : col) : bool :=
  match c with
  | ColValue | ColRank => true
  | ColCountry | ColCountry_with_rank => false
  end.

Section StableSort.
Context {A : Type} (before : A -> A -> bool).

(** [insert_sorted x l] puts [x] in front of the first element it may
    precede, so that [x] stays ahead of the elements equal to it. *)
Fixpoint insert_sorted (x : A) (l : list A) : list A :=
  match l with
  | [] => [x]
  | y :: l' => if before x y then x :: y :: l' else y :: insert_sorted x l'
  end.

Fixpoint stable_sort (l : list A) : list A :=
  match l with
  | [] => []
  | x :: l' => insert_sorted x (stable_sort l')
  end.
End StableSort.

(** The order in which [sort_values(by=c, ascending=asc)] puts two rows. *)
Definition row_before (c : col) (ascending : bool) (a b : Row) : bool :=
  if ascending then col_leb c a b else col_leb c b a.

(** [df.sort_values(by=c, ascending=asc)].  The order of rows of equal
    key is the model's (see the conventions at the top). *)
Definition sort_values (c : col) (ascending : bool) (df : DataFrame)
  : result DataFrame :=
  let* _ := require_column df c in
  Ok {| columns := columns df;
        rows := stable_sort (row_before c ascending) (rows df) |}.

(** [df.nlargest(n, c)]: the first [n] rows in descending order of [c]. *)
Definition nlargest (n : nat) (c : col) (df : DataFrame) : result DataFrame :=
  let* _ := require_column df c in
  if is_numeric c then
    Ok {| columns := columns df;
          rows := firstn n (stable_sort (row_before c false) (rows df)) |}
  else Err TypeError.

(** [df.nsmallest(n, c)]: the first [n] rows in ascending order of [c]. *)
Definition nsmallest (n : nat) (c : col) (df : DataFrame) : result DataFrame :=
  let* _ := require_column df c in
  if is_numeric c then
    Ok {| columns := columns df;
          rows := firstn n (stable_sort (row_before c true) (rows df)) |}
  else Err TypeError.

(** [x in series.values] for an optional string [x]: [None] is in no
    column of strings. *)
Definition contains (x : option string) (values : list string) : bool :=
  match x with
  | None => false
  | Some s => existsb (String.eqb s) values
  end.

(** [series == x], element by element. *)
Definition eq_scalar (values : list string) (x : option string) : list bool :=
  map (fun v => match x with
                | None => false
                | Some s => String.eqb v s
                end) values.

(** Rows of [l] kept by a boolean mask of the same length. *)
Fixpoint select_mask {A : Type} (mask : list bool) (l : list A) : list A :=
  match mask, l with
  | b :: mask', x :: l' => if b then x :: select_mask mask' l' else select_mask mask' l'
  | _, _ => []
  end.

(** [df.loc[mask, c]] *)
Definition loc_mask {A : Type} (df : DataFrame) (mask : list bool) (c : col)
  (field : Row -> A) : result (list A) :=
  let* _ := require_column df c in
  Ok (map field (select_mask mask (rows df))).

(** [df[mask]] *)
Definition getitem_mask (df : DataFrame) (mask : list bool) : DataFrame :=
  {| columns := columns df; rows := select_mask mask (rows df) |}.

(** [series.iloc[0]] *)
Definition iloc0 {A : Type} (s : list A) : result A :=
  match s with
  | x :: _ => Ok x
  | [] => Err IndexError
  end.

(** [series.max()] of an integer column; [None] stands for the NaN that
    pandas returns on an empty column. *)
Definition series_max (s : list Z) : option Z :=
  match s with
  | [] => None
  | x :: s' => Some (fold_left Z.max s' x)
  end.

(** [r >= m - 10] where [m] may be NaN: a comparison with NaN is false. *)
Definition ge_minus (r : Z) (m : option Z) (k : Z) : bool :=
  match m with
  | Some n => r >=? n - k
  | None => false
  end.

(** [series >= lo] and [series <= hi], then [&]. *)
Definition between_mask (s : list Z) (lo hi : Z) : list bool :=
  map (fun x => (x >=? lo) && (x <=? hi)) s.

Definition is_None {A : Type} (o : option A) : bool :=
  match o with
  | None => true
  | Some _ => false
  end.

(* ================================================================== *)
(** ** The rank selector                                               *)
(* ================================================================== *)

(** [df_filtered.loc[df_filtered["Country"] == selected_country, "Rank"].iloc[0]] *)
Definition lookup_rank (df_filtered : DataFrame) (selected_country : option string)
  : result Z :=
  let* countries := getitem df_filtered ColCountry Country in
  let* ranks := loc_mask df_filtered (eq_scalar countries selected_country) ColRank Rank in
  iloc0 ranks.

(** The test of line 65:
    [mode == "top10" or (mode == "country" and selected_country is None)] *)
Definition show_top10 (mode : string) (selected_country : option string) : bool :=
  String.eqb mode "top10"
  || (String.eqb mode "country" && is_None selected_country).

(** The body of [return_chart_data] (lines 65 to 83 of app.py) on the
    frame it has copied out of [indicator_dfs]. *)
Definition select (df_filtered : DataFrame) (mode : string)
  (selected_country : option string) : result DataFrame :=
  if show_top10 mode selected_country then
    let* top := nlargest 10 ColValue df_filtered in
    sort_values ColValue true top
  else
    let* countries := getitem df_filtered ColCountry Country in
    if negb (contains selected_country countries) then
      Ok (empty_frame [ColCountry; ColValue; ColRank; ColCountry_with_rank])
    else
      let* selected_country_rank := lookup_rank df_filtered selected_country in
      let* ranks := getitem df_filtered ColRank Rank in
      let countries_count := series_max ranks in
      if selected_country_rank <=? 10 then
        let* top := nlargest 10 ColValue df_filtered in
        sort_values ColValue true top
      else if ge_minus selected_country_rank countries_count 10 then
        let* bottom := nsmallest 10 ColValue df_filtered in
        sort_values ColValue true bottom
      else
        let* ranks' := getitem df_filtered ColRank Rank in
        let df_neighbors :=
          getitem_mask df_filtered
            (between_mask ranks' (selected_country_rank - 5) (selected_country_rank + 4)) in
        sort_values ColRank true df_neighbors.

(* ================================================================== *)
(** ** Objects: the store of frames                                    *)
(* ================================================================== *)

(** Python names refer to objects.  A frame object is an address in a
    heap of frames; [indicator_dfs] maps an indicator name to the address
    of its table.  A computation takes the heap and returns the heap,
    also when it raises. *)
Abbreviation ref := positive.
Abbreviation heap := (gmap positive DataFrame).

Definition M (A : Type) : Type := heap -> result A * heap.

Definition ret {A : Type} (a : A) : M A := fun h => (Ok a, h).

Definition raise {A : Type} (e : exn) : M A := fun h => (Err e, h).

Definition bindM {A B : Type} (m : M A) (k : A -> M B) : M B :=
  fun h =>
    match m h with
    | (Ok a, h') => k a h'
    | (Err e, h') => (Err e, h')
    end.

Notation "'let!' x ':=' m 'in' k" := (bindM m (fun x => k))
  (at level 10, x name, m at level 100, k at level 200).

Definition lift {A : Type} (r : result A) : M A :=
  match r with
  | Ok a => ret a
  | Err e => raise e
  end.

(** A new object, at an address no live object has. *)
Definition alloc (df : DataFrame) : M ref :=
  fun h => let l := fresh (dom h) in (Ok l, <[l := df]> h).

(** The frame a reference points to.  A Python name always refers to a
    live object; [ReferenceError] only makes [deref] total. *)
Definition deref (l : ref) : M DataFrame :=
  fun h =>
    match h !! l with
    | Some df => (Ok df, h)
    | None => (Err ReferenceError, h)
    end.

(** [df.copy()] *)
Definition copy (l : ref) : M ref :=
  let! df := deref l in alloc df.

(** [d[key]] on a dict *)
Definition dict_getitem {V : Type} (d : gmap string V) (key : string) : M V :=
  match d !! key with
  | Some v => ret v
  | None => raise (KeyError key)
  end.

(** A pandas method that builds a new frame from the frame at [l]. *)
Definition new_frame_from (f : DataFrame -> result DataFrame) (l : ref) : M ref :=
  let! df := deref l in
  let! r := lift (f df) in
  alloc r.

Fixpoint mapM {A B : Type} (f : A -> M B) (l : list A) : M (list B) :=
  match l with
  | [] => ret []
  | x :: l' =>
      let! y := f x in
      let! ys := mapM f l' in
      ret (y :: ys)
  end.

(* ================================================================== *)
(** ** [return_chart_data] and its callers                             *)
(* ================================================================== *)

(** [return_chart_data(indicator_name, mode, selected_country)], lines 62
    to 83: the table is looked up in [indicator_dfs], copied, and the
    selection is returned as a new frame. *)
Definition return_chart_data (indicator_dfs : gmap string ref)
  (indicator_name mode : string) (selected_country : option string) : M ref :=
  let! stored := dict_getitem indicator_dfs indicator_name in
  let! df_filtered := copy stored in
  new_frame_from (fun df => select df mode selected_country) df_filtered.

(** A cell of a record produced by [to_dict("records")]. *)
Inductive cell : Type :=
| CStr (s : string)
| CNum (q : Q)
| CInt (z : Z).

(** The cell of a row under a column label; labels that are not one of
    the four typed columns carry no cell in this model. *)
Definition cell_of (label : string) (r : Row) : option cell :=
  if String.eqb label "Country" then Some (CStr (Country r))
  else if String.eqb label "Value" then Some (CNum (Value r))
  else if String.eqb label "Rank" then Some (CInt (Rank r))
  else if String.eqb label "Country_with_rank" then Some (CStr (Country_with_rank r))
  else None.

(** [df[[c1, ..., cn]]]: the frame restricted to the listed columns.
    When a label is missing pandas raises a [KeyError] whose message
    lists the labels; here it carries the first missing label. *)
Fixpoint require_columns (df : DataFrame) (cs : list col) : result unit :=
  match cs with
  | [] => Ok tt
  | c :: cs' => let* _ := require_column df c in require_columns df cs'
  end.

Definition getitem_list (df : DataFrame) (cs : list col) : result DataFrame :=
  let* _ := require_columns df cs in
  Ok {| columns := map col_name cs; rows := rows df |}.

(** [df.to_dict("records")]: one association list per row, in header order. *)
Definition to_dict_records (df : DataFrame) : list (list (string * cell)) :=
  map (fun r =>
         omap (fun label => option_map (pair label) (cell_of label r)) (columns df))
      (rows df).

(** The [data] of the table built by [create_countries_list], lines 208
    to 216. *)
Definition create_countries_list (indicator_dfs : gmap string ref)
  (indicator_name mode : string) (selected_country : option string)
  : M (list (list (string * cell))) :=
  let! chart := return_chart_data indicator_dfs indicator_name mode selected_country in
  let! df_chart := new_frame_from (sort_values ColRank true) chart in
  let! df := deref df_chart in
  let! shown := lift (getitem_list df [ColCountry_with_rank]) in
  ret (to_dict_records shown).

(** Python truth value of the dropdown's value: [None] and the empty
    string are false. *)
Definition truthy (country : option string) : bool :=
  match country with
  | None => false
  | Some s => negb (String.eqb s EmptyString)
  end.

(** Line 487:
    [current_mode = "country" if (mode == "country" and country) else "top10"] *)
Definition current_mode (mode : string) (country : option string) : string :=
  if String.eqb mode "country" && truthy country then "country" else "top10".

(** The component ids of the layout: [{"type": ..., "indicator": ...}]. *)
Record comp_id : Type := mkId {
  id_type : string;
  indicator : string
}.

(** One conditional style of the countries table. *)
Record style_rule : Type := mkStyle {
  filter_query : string;
  fontWeight : string;
  color : string
}.

Definition dquote : string := String (Ascii.ascii_of_nat 34) EmptyString.

(** The placeholder of line 51. *)
Definition chart_configs : gmap string (gmap string string) :=
  {[ "Patents" := {[ "type" := "stacked"; "secondary" := "Budget (% of GDP)" ]} ]}.

Section Dashboard.
(** The Plotly figure and the part of [create_bar_chart] that draws it
    from the chart frame (lines 89 to 182) belong to the charting
    library and the metadata table. *)
Context {Figure : Type}.
Variable draw_bar_chart : string -> option string -> ref -> M Figure.
Variable indicator_dfs : gmap string ref.

(** [create_bar_chart], lines 86 to 182. *)
Definition create_bar_chart (indicator_name mode : string)
  (selected_country : option string) : M Figure :=
  let! chart := return_chart_data indicator_dfs indicator_name mode selected_country in
  let! df_chart := new_frame_from (sort_values ColRank false) chart in
  draw_bar_chart indicator_name selected_country df_chart.

(** [create_chart], lines 186 to 204: every branch draws the default
    bar chart. *)
Definition create_chart (indicator_name mode : string)
  (selected_country : option string) : M Figure :=
  match chart_configs !! indicator_name with
  | None => create_bar_chart indicator_name mode selected_country
  | Some cfg =>
      if bool_decide (cfg !! "type" = Some "dual") then
        create_bar_chart indicator_name mode selected_country
      else if bool_decide (cfg !! "type" = Some "stacked") then
        create_bar_chart indicator_name mode selected_country
      else create_bar_chart indicator_name mode selected_country
  end.

(** One pass of the table loop of [update_all], lines 501 to 521. *)
Definition update_table (current_mode : string) (country : option string)
  (id : comp_id) : M (list (list (string * cell)) * list style_rule) :=
  let indicator_name := indicator id in
  let! chart := return_chart_data indicator_dfs indicator_name current_mode country in
  let! df_chart := new_frame_from (sort_values ColRank true) chart in
  let! df := deref df_chart in
  let! shown := lift (getitem_list df [ColCountry_with_rank]) in
  let table_data := to_dict_records shown in
  let style :=
    match country with
    | Some c =>
        if truthy country then
          [ {| filter_query := "{Country_with_rank} contains " ++ dquote ++ c ++ dquote;
               fontWeight := "bold";
               color := "black" |} ]
        else []
    | None => []
    end in
  ret (table_data, style).

(** The callback [update_all], lines 485 to 523. *)
Definition update_all (mode : string) (country : option string)
  (chart_ids table_ids : list comp_id)
  : M (list Figure * list (list (list (string * cell))) * list (list style_rule)) :=
  let current_mode := current_mode mode country in
  let! chart_figures :=
    mapM (fun id => create_chart (indicator id) current_mode country) chart_ids in
  let! tables := mapM (update_table current_mode country) table_ids in
  ret (chart_figures, map fst tables, map snd tables).
End Dashboard.

(* ================================================================== *)
(** ** The invariants of an indicator table and the vocabulary of the
       properties                                                      *)
(* ================================================================== *)

Definition indicator_columns : list col :=
  [ColCountry; ColValue; ColRank; ColCountry_with_rank].

(** The header of an indicator table has the four columns of the data
    model (it may have more, such as the indicator's name). *)
Definition indicator_header (t : DataFrame) : bool :=
  forallb (fun c => has_column t (col_name c)) indicator_columns.

(** [Country] is unique within a table. *)
Definition unique_countries (t : DataFrame) : Prop :=
  List.NoDup (map Country (rows t)).

(** The ranks [1; 2; ...; n]. *)
Definition ranks_1_to (n : nat) : list Z := map Z.of_nat (seq 1 n).

(** The ranks of a table are 1..N, each once, N being the number of rows.
    The rows need not be in rank order for what follows. *)
Definition dense_ranks (t : DataFrame) : Prop :=
  Permutation (map Rank (rows t)) (ranks_1_to (length (rows t))).

(** The integers [lo; lo+1; ...; lo+n-1]. *)
Definition Z_interval (lo : Z) (n : nat) : list Z :=
  map (fun i => lo + Z.of_nat i) (seq 0 n).

(** Every row is followed only by rows of a Value at least its own. *)
Definition ascending_by_Value (l : list Row) : Prop :=
  StronglySorted (fun a b => (Value a <= Value b)%Q) l.

(** [res] holds rows of [l] with the largest Values: what is left of [l]
    has no Value above any Value in [res]. *)
Definition largest_by_Value (l res : list Row) : Prop :=
  exists rest, Permutation l (res ++ rest) /\
    forall a b, In a res -> In b rest -> (Value b <= Value a)%Q.

(** [res] holds rows of [l] with the smallest Values. *)
Definition smallest_by_Value (l res : list Row) : Prop :=
  exists rest, Permutation l (res ++ rest) /\
    forall a b, In a res -> In b rest -> (Value a <= Value b)%Q.

(** The rows shown in top-ten mode, and their counterpart at the bottom
    of the ranking: [nlargest(10, "Value")], respectively
    [nsmallest(10, "Value")], followed by [sort_values(by="Value")]. *)
Definition top10_rows (l : list Row) : list Row :=
  stable_sort (row_before ColValue true)
    (firstn 10 (stable_sort (row_before ColValue false) l)).

Definition bottom10_rows (l : list Row) : list Row :=
  stable_sort (row_before ColValue true)
    (firstn 10 (stable_sort (row_before ColValue true) l)).

(** A frame with the header of [t] and the rows [l]. *)
Definition with_rows (t : DataFrame) (l : list Row) : DataFrame :=
  {| columns := columns t; rows := l |}.

(** The rows shown around rank [r]: those of rank [r-5] to [r+4], in rank
    order (lines 81 and 82). *)
Definition neighbor_rows (l : list Row) (r : Z) : list Row :=
  stable_sort (row_before ColRank true)
    (List.filter (fun x => (Rank x >=? r - 5) && (Rank x <=? r + 4)) l).

(** The property "a result has no rows only when the mode is
    ShowAroundCountry(c) and c is not in the table", for one call. *)
Definition no_rows_only_if_country_absent (t : DataFrame) (mode : string)
  (sc : option string) : Prop :=
  forall res, select t mode sc = Ok res -> length (rows res) = 0%nat ->
    mode = "country" /\
    exists c, sc = Some c /\ ~ In c (map Country (rows t)).

(** ** A table to try the selector on

    Fifty countries, ranked 1 to 50 by decreasing Value. *)
Definition digit (n : nat) : string :=
  String (Ascii.ascii_of_nat (48 + n)) EmptyString.

Definition two_digits (i : nat) : string :=
  String.append (digit (i / 10)) (digit (i mod 10)).

Definition sample_row (i : nat) : Row :=
  {| Country := String.append "Country " (two_digits i);
     Value := inject_Z (1000 - 10 * Z.of_nat i);
     Rank := Z.of_nat i;
     Country_with_rank :=
       String.append (two_digits i) (String.append ". Country " (two_digits i)) |}.

Definition sample_header : list string :=
  ["Indicator"; "Country"; "Value"; "Rank"; "Country_with_rank"].

Definition sample_table (n : nat) : DataFrame :=
  {| columns := sample_header; rows := map sample_row (seq 1 n) |}.

(* ================================================================== *)
(** ** The loader of the per-indicator tables (lines 14 to 35)         *)
(* ================================================================== *)

(** One row of [data.csv]: the indicator's name and the cells that end up
    in the indicator's table. *)
Record DataRow : Type := mkDataRow {
  Indicator : string;
  entry : Row
}.

(** The frame [df] read from [data.csv]. *)
Record DataSheet : Type := mkDataSheet {
  sheet_columns : list string;
  sheet_rows : list DataRow
}.

(** [df[label]] on the sheet: [KeyError] when the label is not a column. *)
Definition sheet_require (df : DataSheet) (label : string) : result unit :=
  if existsb (String.eqb label) (sheet_columns df) then Ok tt
  else Err (KeyError label).

(** The group [df_ind] of one indicator in [df.groupby("Indicator")]: the
    rows of that indicator, in the order of the sheet. *)
Definition group_of (df : DataSheet) (ind : string) : DataFrame :=
  {| columns := sheet_columns df;
     rows := map entry
               (List.filter (fun d => String.eqb (Indicator d) ind) (sheet_rows df)) |}.

(** The dict comprehension of lines 32 to 35, one group after the other:
    [ind: df_ind.sort_values("Rank").reset_index(drop=True)]. *)
Fixpoint build_tables (df : DataSheet) (inds : list string)
  (acc : gmap string DataFrame) : result (gmap string DataFrame) :=
  match inds with
  | [] => Ok acc
  | ind :: inds' =>
      let* t := sort_values ColRank true (group_of df ind) in
      build_tables df inds' (<[ind := t]> acc)
  end.

(** Lines 21 to 35: the two columns made categorical, then one table per
    indicator of the sheet.  The order in which the groups are visited
    does not show in a dict that is only ever indexed. *)
Definition load_indicator_dfs (df : DataSheet) : result (gmap string DataFrame) :=
  let* _ := sheet_require df "Indicator" in
  let* _ := sheet_require df "Country" in
  build_tables df (remove_dups (map Indicator (sheet_rows df))) ∅.

(* ================================================================== *)
(** ** What the callers make of a selection                            *)
(* ================================================================== *)

(** Line 87: the frame [create_bar_chart] draws, the selection in
    descending order of Rank. *)
Definition chart_frame (t : DataFrame) (mode : string)
  (selected_country : option string) : result DataFrame :=
  let* chart := select t mode selected_country in
  sort_values ColRank false chart.

(** Lines 89 to 92: the background of the plot. *)
Definition plot_bgcolor (df_chart : DataFrame) : string :=
  if Nat.eqb (length (rows df_chart)) 0 then "whitesmoke" else "white".

(** Lines 210 and 505: the frame the countries table lists, the selection
    in ascending order of Rank. *)
Definition list_frame (t : DataFrame) (mode : string)
  (selected_country : option string) : result DataFrame :=
  let* chart := select t mode selected_country in
  sort_values ColRank true chart.

(** The record [to_dict("records")] makes of a row projected on
    Country_with_rank. *)
Definition list_record (r : Row) : list (string * cell) :=
  [("Country_with_rank", CStr (Country_with_rank r))].

(** Lines 107 to 115: the colour of the selected country's bar and of
    the other bars, by the group of the indicator. *)
Definition group_colors (group : string) : string * string :=
  if String.eqb group "Economy" then ("goldenrod", "khaki")
  else if String.eqb group "People" then ("gray", "silver")
  else if String.eqb group "Geography" then ("seagreen", "lightgreen")
  else ("steelblue", "lightblue").

(** [np.where(df_chart["Country"] == selected_country, a, b)], the column
    [bar_color] that lines 109 to 115 add to the chart frame. *)
Definition bar_colors (group : string) (selected_country : option string)
  (df_chart : DataFrame) : result (list string) :=
  let* countries := getitem df_chart ColCountry Country in
  Ok (map (fun selected : bool =>
             if selected then fst (group_colors group)
             else snd (group_colors group))
          (eq_scalar countries selected_country)).

(* ================================================================== *)
(** ** More vocabulary for the properties                              *)
(* ================================================================== *)

(** Rank 1 is the highest Value: a better rank has a strictly larger
    Value. *)
Definition rank_consistent (t : DataFrame) : Prop :=
  forall a b, In a (rows t) -> In b (rows t) ->
    Rank a < Rank b -> (Value b < Value a)%Q.

(** The integers [hi; hi-1; ...; hi-n+1]. *)
Definition ranks_down_from (hi : Z) (n : nat) : list Z :=
  map (fun i => hi - Z.of_nat i) (seq 0 n).

(** The ranks around rank [r] in a table of [n] rows, as the three cases
    of lines 76 to 83 pick them. *)
Definition shown_ranks (n : nat) (r : Z) : list Z :=
  if r <=? 10 then ranks_1_to (Nat.min 10 n)
  else if r >=? Z.of_nat n - 10 then Z_interval (Z.of_nat n - 9) 10
  else Z_interval (r - 5) 10.

(** A computation keeps the objects of [h0]: run on a heap that holds
    them, it leaves a heap that holds them, unchanged. *)
Definition keeps {A : Type} (h0 : heap) (m : M A) : Prop :=
  forall (h : heap) r (h' : heap), h0 ⊆ h -> m h = (r, h') -> h0 ⊆ h'.

(** The drawing code writes to no frame but the one it is handed (it adds
    columns to that one, lines 109 to 123). *)
Definition touches_only_its_frame {Figure : Type}
  (draw : string -> option string -> ref -> M Figure) : Prop :=
  forall ind sc l (h : heap) r (h' : heap),
    draw ind sc l h = (r, h') ->
    forall l' df, l' <> l -> h !! l' = Some df -> h' !! l' = Some df.

(** A drawing code to try the callbacks with: it adds a column to the
    frame it is handed and returns the number of bars. *)
Definition sample_draw (ind : string) (sc : option string) (l : ref) : M nat :=
  fun h =>
    match h !! l with
    | Some df =>
        (Ok (length (rows df)),
         <[l := {| columns := columns df ++ ["bar_color"]; rows := rows df |}]> h)
    | None => (Err ReferenceError, h)
    end.

(** A sheet to try the loader on: the fifty countries of [sample_table]
    under the indicator GDP, listed from the last rank to the first, and
    three countries under the indicator Population. *)
Definition sample_sheet : DataSheet :=
  {| sheet_columns := sample_header;
     sheet_rows :=
       map (fun i => mkDataRow "GDP" (sample_row i)) (rev (seq 1 50))
       ++ map (fun i => mkDataRow "Population" (sample_row i)) [2; 3; 1]%nat |}.

(* ================================================================== *)
(** ** Facts about the sorting primitive                               *)
(* ================================================================== *)

Section StableSortFacts.
Context {A : Type} (before : A -> A -> bool).

Lemma insert_sorted_perm (x : A) (l : list A) :
  Permutation (insert_sorted before x l) (x :: l).
Proof.
  induction l as [|y l IH]; simpl.
  - apply Permutation_refl.
  - destruct (before x y).
    + apply Permutation_refl.
    + eapply Permutation_trans.
      * apply perm_skip. exact IH.
      * apply perm_swap.
Qed.

Lemma stable_sort_perm (l : list A) : Permutation (stable_sort before l) l.
Proof.
  induction l as [|x l IH]; simpl.
  - apply perm_nil.
  - eapply Permutation_trans.
    + apply insert_sorted_perm.
    + apply perm_skip. exact IH.
Qed.

Lemma stable_sort_length (l : list A) :
  length (stable_sort before l) = length l.
Proof. apply Permutation_length, stable_sort_perm. Qed.

Lemma stable_sort_In (l : list A) (x : A) :
  In x (stable_sort before l) <-> In x l.
Proof.
  split; apply Permutation_in.
  - apply stable_sort_perm.
  - apply Permutation_sym, stable_sort_perm.
Qed.

Hypothesis before_total : forall a b, before a b = true \/ before b a = true.
Hypothesis before_trans :
  forall a b c, before a b = true -> before b c = true -> before a c = true.

Let ordered (a b : A) : Prop := before a b = true.

Lemma insert_sorted_sorted (x : A) (l : list A) :
  StronglySorted ordered l -> StronglySorted ordered (insert_sorted before x l).
Proof.
  induction 1 as [|y l Hl IH Hy]; simpl.
  - constructor; constructor.
  - destruct (before x y) eqn:Hxy.
    + constructor.
      * constructor; assumption.
      * constructor; [exact Hxy|].
        rewrite List.Forall_forall in Hy. apply List.Forall_forall.
        intros z Hz. eapply before_trans; [exact Hxy|]. apply Hy, Hz.
    + constructor; [exact IH|].
      assert (Hyx : before y x = true).
      { destruct (before_total x y) as [H|H]; [congruence|exact H]. }
      apply List.Forall_forall. intros z Hz.
      apply (Permutation_in _ (insert_sorted_perm x l)) in Hz.
      destruct Hz as [<-|Hz]; [exact Hyx|].
      rewrite List.Forall_forall in Hy. apply Hy, Hz.
Qed.

Lemma stable_sort_sorted (l : list A) :
  StronglySorted ordered (stable_sort before l).
Proof.
  induction l as [|x l IH]; simpl.
  - constructor.
  - apply insert_sorted_sorted, IH.
Qed.

(** In a sorted list every element of a prefix precedes every element
    of the matching suffix. *)
Lemma sorted_prefix_before_suffix (n : nat) (l : list A) :
  StronglySorted ordered l ->
  forall a b, In a (firstn n l) -> In b (skipn n l) -> before a b = true.
Proof.
  intros Hs. revert n.
  induction Hs as [|x l Hl IH Hx]; intros n a b Ha Hb.
  - destruct n; simpl in Ha; contradiction.
  - destruct n as [|n]; simpl in Ha, Hb; [contradiction|].
    destruct Ha as [<-|Ha].
    + rewrite List.Forall_forall in Hx. apply Hx.
      rewrite <- (firstn_skipn n l). apply in_or_app. right. exact Hb.
    + eapply IH; eassumption.
Qed.
End StableSortFacts.

(* ================================================================== *)
(** ** Facts about the column orders                                   *)
(* ================================================================== *)

Lemma Value_before_total (asc : bool) (a b : Row) :
  row_before ColValue asc a b = true \/ row_before ColValue asc b a = true.
Proof.
  unfold row_before, col_leb.
  destruct asc; rewrite !Qle_bool_iff.
  - destruct (Qlt_le_dec (Value b) (Value a)) as [H|H];
      [right; apply Qlt_le_weak, H | left; exact H].
  - destruct (Qlt_le_dec (Value b) (Value a)) as [H|H];
      [left; apply Qlt_le_weak, H | right; exact H].
Qed.

Lemma Value_before_trans (asc : bool) (a b c : Row) :
  row_before ColValue asc a b = true -> row_before ColValue asc b c = true ->
  row_before ColValue asc a c = true.
Proof.
  unfold row_before, col_leb.
  destruct asc; rewrite !Qle_bool_iff; intros H1 H2.
  - eapply Qle_trans; eassumption.
  - eapply Qle_trans; eassumption.
Qed.

Lemma Rank_before_total (asc : bool) (a b : Row) :
  row_before ColRank asc a b = true \/ row_before ColRank asc b a = true.
Proof. unfold row_before, col_leb. destruct asc; lia. Qed.

Lemma Rank_before_trans (asc : bool) (a b c : Row) :
  row_before ColRank asc a b = true -> row_before ColRank asc b c = true ->
  row_before ColRank asc a c = true.
Proof. unfold row_before, col_leb. destruct asc; lia. Qed.

Lemma StronglySorted_weaken {A : Type} (R R' : A -> A -> Prop) (l : list A) :
  (forall a b, R a b -> R' a b) -> StronglySorted R l -> StronglySorted R' l.
Proof.
  intros HR. induction 1 as [|x l Hl IH Hx]; constructor.
  - exact IH.
  - rewrite List.Forall_forall in *. intros y Hy. apply HR, Hx, Hy.
Qed.

Lemma sort_by_Value_ascending (l : list Row) :
  ascending_by_Value (stable_sort (row_before ColValue true) l).
Proof.
  unfold ascending_by_Value.
  eapply StronglySorted_weaken;
    [| apply (stable_sort_sorted _ (Value_before_total true) (Value_before_trans true))].
  intros a b H. simpl in H. apply Qle_bool_iff, H.
Qed.

(** ** The ten largest and the ten smallest *)

Lemma top10_rows_length (l : list Row) :
  length (top10_rows l) = Nat.min 10 (length l).
Proof.
  unfold top10_rows.
  rewrite stable_sort_length, length_firstn, stable_sort_length. reflexivity.
Qed.

Lemma bottom10_rows_length (l : list Row) :
  length (bottom10_rows l) = Nat.min 10 (length l).
Proof.
  unfold bottom10_rows.
  rewrite stable_sort_length, length_firstn, stable_sort_length. reflexivity.
Qed.

Lemma top10_rows_ascending (l : list Row) : ascending_by_Value (top10_rows l).
Proof. apply sort_by_Value_ascending. Qed.

Lemma bottom10_rows_ascending (l : list Row) : ascending_by_Value (bottom10_rows l).
Proof. apply sort_by_Value_ascending. Qed.

(** A sorted prefix, put in any order, together with the suffix it
    leaves. *)
Lemma prefix_of_sorted_split (before before' : Row -> Row -> bool) (n : nat)
  (l : list Row) :
  let s := stable_sort before l in
  Permutation l (stable_sort before' (firstn n s) ++ skipn n s).
Proof.
  intros s. subst s.
  eapply Permutation_trans.
  - apply Permutation_sym, (stable_sort_perm before).
  - rewrite <- (firstn_skipn n (stable_sort before l)) at 1.
    apply Permutation_app_tail, Permutation_sym, stable_sort_perm.
Qed.

Lemma top10_rows_largest (l : list Row) : largest_by_Value l (top10_rows l).
Proof.
  exists (skipn 10 (stable_sort (row_before ColValue false) l)). split.
  - apply prefix_of_sorted_split.
  - intros a b Ha Hb. apply stable_sort_In in Ha.
    pose proof (sorted_prefix_before_suffix _ 10 _
                  (stable_sort_sorted _ (Value_before_total false)
                     (Value_before_trans false) l) a b Ha Hb) as H.
    simpl in H. apply Qle_bool_iff, H.
Qed.

Lemma bottom10_rows_smallest (l : list Row) : smallest_by_Value l (bottom10_rows l).
Proof.
  exists (skipn 10 (stable_sort (row_before ColValue true) l)). split.
  - apply prefix_of_sorted_split.
  - intros a b Ha Hb. apply stable_sort_In in Ha.
    pose proof (sorted_prefix_before_suffix _ 10 _
                  (stable_sort_sorted _ (Value_before_total true)
                     (Value_before_trans true) l) a b Ha Hb) as H.
    simpl in H. apply Qle_bool_iff, H.
Qed.

(* ================================================================== *)
(** ** Facts about headers, masks and column reads                     *)
(* ================================================================== *)

Lemma require_column_ok (t : DataFrame) (c : col) :
  indicator_header t = true -> require_column t c = Ok tt.
Proof.
  unfold indicator_header, indicator_columns, require_column. simpl.
  rewrite !andb_true_iff. intros (H1 & H2 & H3 & H4 & _).
  destruct c; simpl; [rewrite H1|rewrite H2|rewrite H3|rewrite H4]; reflexivity.
Qed.

Lemma require_column_columns (df t : DataFrame) (c : col) :
  columns df = columns t -> require_column df c = require_column t c.
Proof. intros H. unfold require_column, has_column. rewrite H. reflexivity. Qed.

Lemma require_column_cases (t : DataFrame) (c : col) :
  require_column t c = Ok tt \/ require_column t c = Err (KeyError (col_name c)).
Proof. unfold require_column. destruct (has_column t (col_name c)); auto. Qed.

Lemma select_mask_map {A : Type} (p : A -> bool) (l : list A) :
  select_mask (map p l) l = List.filter p l.
Proof.
  induction l as [|x l IH]; simpl; [reflexivity|].
  rewrite IH. reflexivity.
Qed.

Lemma select_mask_eq_scalar (l : list Row) (c : string) :
  select_mask (eq_scalar (map Country l) (Some c)) l
  = List.filter (fun x => String.eqb (Country x) c) l.
Proof.
  unfold eq_scalar. rewrite map_map. apply select_mask_map.
Qed.

Lemma select_mask_eq_None (l : list Row) :
  select_mask (eq_scalar (map Country l) None) l = [].
Proof.
  unfold eq_scalar. rewrite map_map, select_mask_map.
  induction l; simpl; auto.
Qed.

Lemma select_mask_between (l : list Row) (lo hi : Z) :
  select_mask (between_mask (map Rank l) lo hi) l
  = List.filter (fun x => (Rank x >=? lo) && (Rank x <=? hi)) l.
Proof.
  unfold between_mask. rewrite map_map. apply select_mask_map.
Qed.

Lemma contains_Some (c : string) (values : list string) :
  contains (Some c) values = true <-> In c values.
Proof.
  simpl. rewrite existsb_exists. split.
  - intros (x & Hx & Heq). apply String.eqb_eq in Heq. subst. exact Hx.
  - intros H. exists c. split; [exact H|apply String.eqb_refl].
Qed.

(** The membership test of line 69 is what makes the read of line 72
    succeed: a country that is in the column has a first matching row. *)
Lemma first_match_of_member (l : list Row) (c : string) :
  contains (Some c) (map Country l) = true ->
  exists row rest,
    List.filter (fun x => String.eqb (Country x) c) l = row :: rest /\
    In row l /\ Country row = c.
Proof.
  rewrite contains_Some, in_map_iff. intros (row & Hc & Hin).
  assert (Hf : In row (List.filter (fun x => String.eqb (Country x) c) l)).
  { apply filter_In. split; [exact Hin|]. rewrite Hc. apply String.eqb_refl. }
  destruct (List.filter (fun x => String.eqb (Country x) c) l) as [|r rest] eqn:E.
  - contradiction.
  - exists r, rest. split; [reflexivity|].
    assert (Hr : In r (List.filter (fun x => String.eqb (Country x) c) l)).
    { rewrite E. left. reflexivity. }
    apply filter_In in Hr. destruct Hr as [Hr1 Hr2].
    split; [exact Hr1|]. apply String.eqb_eq, Hr2.
Qed.

(** Without the membership test the read would raise. *)
Lemma no_match_of_non_member (l : list Row) (sc : option string) :
  contains sc (map Country l) = false ->
  select_mask (eq_scalar (map Country l) sc) l = [].
Proof.
  destruct sc as [c|]; [|intros _; apply select_mask_eq_None].
  intros H. rewrite select_mask_eq_scalar.
  destruct (List.filter (fun x => String.eqb (Country x) c) l) as [|r rest] eqn:E;
    [reflexivity|].
  assert (Hr : In r (List.filter (fun x => String.eqb (Country x) c) l)).
  { rewrite E. left. reflexivity. }
  apply filter_In in Hr. destruct Hr as [Hr1 Hr2]. apply String.eqb_eq in Hr2.
  assert (Hc : contains (Some c) (map Country l) = true).
  { apply contains_Some. rewrite <- Hr2. apply in_map, Hr1. }
  congruence.
Qed.

(** When countries are unique, the only row matching a row's country is
    that row. *)
Lemma filter_unique_country (l : list Row) (row : Row) :
  List.NoDup (map Country l) -> In row l ->
  List.filter (fun x => String.eqb (Country x) (Country row)) l = [row].
Proof.
  induction l as [|y l IH]; intros Hnd Hin; [contradiction|].
  simpl in Hnd. apply List.NoDup_cons_iff in Hnd. destruct Hnd as [Hy Hnd].
  assert (Hnone : forall r, ~ In (Country r) (map Country l) ->
            List.filter (fun x => String.eqb (Country x) (Country r)) l = []).
  { intros r Hr. clear -Hr. induction l as [|z l IH]; simpl; [reflexivity|].
    destruct (String.eqb (Country z) (Country r)) eqn:E.
    - apply String.eqb_eq in E. exfalso. apply Hr. left. exact E.
    - apply IH. intros H. apply Hr. right. exact H. }
  simpl. destruct Hin as [->|Hin].
  - rewrite String.eqb_refl. f_equal. apply Hnone, Hy.
  - destruct (String.eqb (Country y) (Country row)) eqn:E.
    + apply String.eqb_eq in E. exfalso. apply Hy. rewrite E. apply in_map, Hin.
    + apply IH; assumption.
Qed.

Lemma lookup_rank_unique (t : DataFrame) (row : Row) :
  indicator_header t = true -> unique_countries t -> In row (rows t) ->
  lookup_rank t (Some (Country row)) = Ok (Rank row).
Proof.
  intros Hh Hu Hin. unfold lookup_rank, getitem, loc_mask.
  rewrite !(require_column_ok t) by exact Hh. simpl.
  rewrite select_mask_eq_scalar, filter_unique_country by assumption.
  reflexivity.
Qed.

(** ** The largest rank *)

Lemma fold_max_spec (s : list Z) (x : Z) :
  let m := fold_left Z.max s x in
  In m (x :: s) /\ forall y, In y (x :: s) -> y <= m.
Proof.
  revert x. induction s as [|z s IH]; intros x; simpl.
  - split; [left; reflexivity|]. intros y [<-|[]]. lia.
  - destruct (IH (Z.max x z)) as [Hin Hmax]. split.
    + destruct Hin as [Hin|Hin]; [|right; right; exact Hin].
      rewrite <- Hin. destruct (Z.max_spec x z) as [[_ ->]|[_ ->]]; auto.
    + intros y Hy.
      assert (Z.max x z <= fold_left Z.max s (Z.max x z)) by (apply Hmax; left; reflexivity).
      destruct Hy as [<-|[<-|Hy]]; [lia|lia|].
      apply Hmax. right. exact Hy.
Qed.

Lemma series_max_spec (s : list Z) (m : Z) :
  series_max s = Some m -> In m s /\ forall y, In y s -> y <= m.
Proof.
  destruct s as [|x s]; simpl; [discriminate|].
  intros [= <-]. apply fold_max_spec.
Qed.

Lemma in_ranks_1_to (n : nat) (z : Z) :
  In z (ranks_1_to n) <-> 1 <= z <= Z.of_nat n.
Proof.
  unfold ranks_1_to. rewrite in_map_iff. split.
  - intros (i & <- & Hi). apply in_seq in Hi. lia.
  - intros H. exists (Z.to_nat z). split; [lia|]. apply in_seq. lia.
Qed.

Lemma dense_ranks_range (t : DataFrame) (row : Row) :
  dense_ranks t -> In row (rows t) ->
  1 <= Rank row <= Z.of_nat (length (rows t)).
Proof.
  intros Hd Hin. apply in_ranks_1_to.
  eapply Permutation_in; [exact Hd|]. apply in_map, Hin.
Qed.

Lemma dense_ranks_max (t : DataFrame) :
  dense_ranks t -> rows t <> [] ->
  series_max (map Rank (rows t)) = Some (Z.of_nat (length (rows t))).
Proof.
  intros Hd Hne.
  destruct (series_max (map Rank (rows t))) as [m|] eqn:E.
  - apply series_max_spec in E. destruct E as [Hin Hmax].
    assert (H1 : 1 <= m <= Z.of_nat (length (rows t))).
    { apply in_ranks_1_to. eapply Permutation_in; [exact Hd|exact Hin]. }
    assert (H2 : In (Z.of_nat (length (rows t))) (map Rank (rows t))).
    { eapply Permutation_in; [apply Permutation_sym, Hd|].
      apply in_ranks_1_to. destruct (rows t); [congruence|simpl; lia]. }
    apply Hmax in H2. f_equal. lia.
  - destruct (rows t); [congruence|discriminate].
Qed.

(* ================================================================== *)
(** ** The branches of the selector                                    *)
(* ================================================================== *)

Lemma top10_frame (t : DataFrame) :
  require_column t ColValue = Ok tt ->
  (let* top := nlargest 10 ColValue t in sort_values ColValue true top)
  = Ok (with_rows t (top10_rows (rows t))).
Proof.
  intros H. unfold nlargest, sort_values. rewrite H. simpl.
  rewrite (require_column_columns _ t) by reflexivity. rewrite H. reflexivity.
Qed.

Lemma bottom10_frame (t : DataFrame) :
  require_column t ColValue = Ok tt ->
  (let* bottom := nsmallest 10 ColValue t in sort_values ColValue true bottom)
  = Ok (with_rows t (bottom10_rows (rows t))).
Proof.
  intros H. unfold nsmallest, sort_values. rewrite H. simpl.
  rewrite (require_column_columns _ t) by reflexivity. rewrite H. reflexivity.
Qed.

Lemma neighbors_frame (t : DataFrame) (r : Z) :
  require_column t ColRank = Ok tt ->
  (let* ranks' := getitem t ColRank Rank in
   sort_values ColRank true
     (getitem_mask t (between_mask ranks' (r - 5) (r + 4))))
  = Ok (with_rows t (neighbor_rows (rows t) r)).
Proof.
  intros H. unfold getitem, sort_values, getitem_mask. rewrite H. simpl.
  rewrite (require_column_columns _ t) by reflexivity. rewrite H. simpl.
  rewrite select_mask_between. reflexivity.
Qed.

(** The selector on a table that has the columns of the data model. *)
Lemma select_eq (t : DataFrame) (mode : string) (sc : option string) :
  indicator_header t = true ->
  select t mode sc =
    if show_top10 mode sc then Ok (with_rows t (top10_rows (rows t)))
    else if negb (contains sc (map Country (rows t))) then
      Ok (empty_frame indicator_columns)
    else
      let* r := lookup_rank t sc in
      if r <=? 10 then Ok (with_rows t (top10_rows (rows t)))
      else if ge_minus r (series_max (map Rank (rows t))) 10 then
        Ok (with_rows t (bottom10_rows (rows t)))
      else Ok (with_rows t (neighbor_rows (rows t) r)).
Proof.
  intros Hh. unfold select.
  pose proof (require_column_ok t ColValue Hh) as HV.
  pose proof (require_column_ok t ColRank Hh) as HR.
  pose proof (require_column_ok t ColCountry Hh) as HC.
  rewrite (top10_frame t HV), (bottom10_frame t HV).
  destruct (show_top10 mode sc); [reflexivity|].
  unfold getitem at 1. rewrite HC. simpl.
  destruct (negb (contains sc (map Country (rows t)))); [reflexivity|].
  destruct (lookup_rank t sc) as [r|e]; [|reflexivity]. simpl.
  unfold getitem at 1. rewrite HR. simpl.
  destruct (r <=? 10); [reflexivity|].
  destruct (ge_minus r (series_max (map Rank (rows t))) 10); [reflexivity|].
  apply (neighbors_frame t r HR).
Qed.

Lemma lookup_rank_member (t : DataFrame) (c : string) :
  require_column t ColCountry = Ok tt -> require_column t ColRank = Ok tt ->
  contains (Some c) (map Country (rows t)) = true ->
  exists row, In row (rows t) /\ Country row = c /\
              lookup_rank t (Some c) = Ok (Rank row).
Proof.
  intros HC HR Hin. unfold lookup_rank, getitem, loc_mask.
  rewrite HC, HR. simpl. rewrite select_mask_eq_scalar.
  destruct (first_match_of_member _ _ Hin) as (row & rest & -> & Hrow & Hc).
  exists row. auto.
Qed.

Lemma lookup_rank_non_member (t : DataFrame) (sc : option string) :
  require_column t ColCountry = Ok tt -> require_column t ColRank = Ok tt ->
  contains sc (map Country (rows t)) = false ->
  lookup_rank t sc = Err IndexError.
Proof.
  intros HC HR Hin. unfold lookup_rank, getitem, loc_mask.
  rewrite HC, HR. simpl. rewrite no_match_of_non_member by exact Hin.
  reflexivity.
Qed.

(** On a table with the columns of the data model the selector returns. *)
Lemma select_total (t : DataFrame) (mode : string) (sc : option string) :
  indicator_header t = true -> exists res, select t mode sc = Ok res.
Proof.
  intros Hh. rewrite (select_eq t mode sc Hh).
  destruct (show_top10 mode sc); [eauto|].
  destruct (contains sc (map Country (rows t))) eqn:Hc; simpl; [|eauto].
  destruct sc as [c|]; [|discriminate].
  destruct (lookup_rank_member t c (require_column_ok t _ Hh)
              (require_column_ok t _ Hh) Hc) as (row & _ & _ & ->).
  simpl. destruct (Rank row <=? 10); [eauto|].
  destruct (ge_minus _ _ _); eauto.
Qed.

(* ================================================================== *)
(** ** Facts about the neighbours of a rank                            *)
(* ================================================================== *)

Lemma ranks_1_to_NoDup (n : nat) : List.NoDup (ranks_1_to n).
Proof.
  unfold ranks_1_to. apply Finite.Injective_map_NoDup.
  - intros a b H. lia.
  - apply seq_NoDup.
Qed.

Lemma dense_ranks_NoDup (t : DataFrame) :
  dense_ranks t -> List.NoDup (map Rank (rows t)).
Proof.
  intros Hd. eapply Permutation_NoDup.
  - apply Permutation_sym, Hd.
  - apply ranks_1_to_NoDup.
Qed.

Lemma filter_map_comm {A B : Type} (f : A -> B) (p : B -> bool) (l : list A) :
  map f (List.filter (fun x => p (f x)) l) = List.filter p (map f l).
Proof.
  induction l as [|x l IH]; simpl; [reflexivity|].
  destruct (p (f x)); simpl; rewrite IH; reflexivity.
Qed.

Lemma StronglySorted_map {A B : Type} (f : A -> B) (R : B -> B -> Prop)
  (l : list A) :
  StronglySorted (fun a b => R (f a) (f b)) l -> StronglySorted R (map f l).
Proof.
  induction 1 as [|x l Hl IH Hx]; simpl; constructor.
  - exact IH.
  - rewrite List.Forall_forall in *. intros y Hy.
    apply in_map_iff in Hy. destruct Hy as (z & <- & Hz). apply Hx, Hz.
Qed.

Lemma in_Z_interval (lo z : Z) (n : nat) :
  In z (Z_interval lo n) <-> lo <= z < lo + Z.of_nat n.
Proof.
  unfold Z_interval. rewrite in_map_iff. split.
  - intros (i & <- & Hi). apply in_seq in Hi. lia.
  - intros H. exists (Z.to_nat (z - lo)). split; [lia|]. apply in_seq. lia.
Qed.

Lemma Z_interval_NoDup (lo : Z) (n : nat) : List.NoDup (Z_interval lo n).
Proof.
  unfold Z_interval. apply Finite.Injective_map_NoDup.
  - intros a b H. lia.
  - apply seq_NoDup.
Qed.

Lemma Z_interval_sorted (lo : Z) (n : nat) : StronglySorted Z.le (Z_interval lo n).
Proof.
  unfold Z_interval. apply StronglySorted_map.
  generalize 0%nat. induction n as [|n IH]; intros s; simpl; constructor.
  - apply IH.
  - apply List.Forall_forall. intros y Hy. apply in_seq in Hy. lia.
Qed.

Lemma neighbor_rows_In (l : list Row) (r : Z) (x : Row) :
  In x (neighbor_rows l r) <-> In x l /\ r - 5 <= Rank x <= r + 4.
Proof.
  unfold neighbor_rows. rewrite stable_sort_In, filter_In, andb_true_iff.
  split; intros [H1 H2]; (split; [exact H1|lia]).
Qed.

Lemma neighbor_rows_sorted (l : list Row) (r : Z) :
  StronglySorted Z.le (map Rank (neighbor_rows l r)).
Proof.
  apply StronglySorted_map. unfold neighbor_rows.
  eapply StronglySorted_weaken;
    [| apply (stable_sort_sorted _ (Rank_before_total true) (Rank_before_trans true))].
  intros a b H. simpl in H. lia.
Qed.

(** The ranks of the neighbours, as a list without repetition when the
    ranks of the table are all different. *)
Lemma neighbor_rows_ranks_perm (l : list Row) (r : Z) :
  Permutation (map Rank (neighbor_rows l r))
    (List.filter (fun z => (z >=? r - 5) && (z <=? r + 4)) (map Rank l)).
Proof.
  unfold neighbor_rows.
  rewrite <- (filter_map_comm Rank (fun z => (z >=? r - 5) && (z <=? r + 4))).
  apply Permutation_map, stable_sort_perm.
Qed.

Lemma neighbor_rows_at_most_10 (l : list Row) (r : Z) :
  List.NoDup (map Rank l) -> (length (neighbor_rows l r) <= 10)%nat.
Proof.
  intros Hnd.
  rewrite <- (length_map Rank), (Permutation_length (neighbor_rows_ranks_perm l r)).
  change 10%nat with (length (Z_interval (r - 5) 10)).
  apply NoDup_incl_length.
  - apply List.NoDup_filter, Hnd.
  - intros z Hz. apply filter_In in Hz. destruct Hz as [_ Hz].
    apply in_Z_interval. lia.
Qed.

Lemma neighbor_rows_ranks (t : DataFrame) (r : Z) :
  dense_ranks t -> 6 <= r -> r + 4 <= Z.of_nat (length (rows t)) ->
  map Rank (neighbor_rows (rows t) r) = Z_interval (r - 5) 10.
Proof.
  intros Hd Hlo Hhi.
  apply (StronglySorted_unique Z.le).
  - apply neighbor_rows_sorted.
  - apply Z_interval_sorted.
  - eapply Permutation_trans; [apply neighbor_rows_ranks_perm|].
    apply Permutation.NoDup_Permutation.
    + apply List.NoDup_filter, dense_ranks_NoDup, Hd.
    + apply Z_interval_NoDup.
    + intros z. rewrite filter_In, in_Z_interval. split.
      * intros [_ Hz]. lia.
      * intros Hz. split; [|lia].
        eapply Permutation_in; [apply Permutation_sym, Hd|].
        apply in_ranks_1_to. lia.
Qed.

(* ================================================================== *)
(** ** Facts about the store of frames                                 *)
(* ================================================================== *)

Lemma fresh_not_live (h : heap) : h !! fresh (dom h) = None.
Proof. apply not_elem_of_dom, is_fresh. Qed.

Lemma alloc_extends (df : DataFrame) (h : heap) :
  h ⊆ <[fresh (dom h) := df]> h.
Proof. apply insert_subseteq, fresh_not_live. Qed.

(** One call of [return_chart_data], step by step: the copy of the stored
    table goes to a new address, and so does the selection; nothing is
    written anywhere else. *)
Lemma return_chart_data_run (indicator_dfs : gmap string ref)
  (indicator_name mode : string) (sc : option string) (h : heap)
  (stored : ref) (t : DataFrame) :
  indicator_dfs !! indicator_name = Some stored ->
  h !! stored = Some t ->
  let h1 := <[fresh (dom h) := t]> h in
  return_chart_data indicator_dfs indicator_name mode sc h =
    match select t mode sc with
    | Ok res => (Ok (fresh (dom h1)), <[fresh (dom h1) := res]> h1)
    | Err e => (Err e, h1)
    end.
Proof.
  intros Hd Hh h1.
  unfold return_chart_data, dict_getitem, copy, new_frame_from, bindM, deref, alloc.
  rewrite Hd. unfold ret. rewrite Hh.
  rewrite lookup_insert_eq.
  destruct (select t mode sc); reflexivity.
Qed.

Lemma return_chart_data_unknown (indicator_dfs : gmap string ref)
  (indicator_name mode : string) (sc : option string) (h : heap) :
  indicator_dfs !! indicator_name = None ->
  return_chart_data indicator_dfs indicator_name mode sc h
  = (Err (KeyError indicator_name), h).
Proof.
  intros Hd. unfold return_chart_data, dict_getitem, bindM. rewrite Hd.
  reflexivity.
Qed.

Lemma sort_values_ok (c : col) (ascending : bool) (df : DataFrame) :
  require_column df c = Ok tt ->
  sort_values c ascending df
  = Ok (with_rows df (stable_sort (row_before c ascending) (rows df))).
Proof. intros H. unfold sort_values. rewrite H. reflexivity. Qed.

Lemma getitem_list_single (df : DataFrame) (c : col) :
  require_column df c = Ok tt ->
  getitem_list df [c] = Ok {| columns := [col_name c]; rows := rows df |}.
Proof. intros H. unfold getitem_list. simpl. rewrite H. reflexivity. Qed.

(* ================================================================== *)
(** ** The exceptions of the selector                                  *)
(* ================================================================== *)

Lemma top10_frame_err (t : DataFrame) (e : exn) :
  require_column t ColValue = Err e ->
  (let* top := nlargest 10 ColValue t in sort_values ColValue true top) = Err e.
Proof. intros H. unfold nlargest. rewrite H. reflexivity. Qed.

Lemma bottom10_frame_err (t : DataFrame) (e : exn) :
  require_column t ColValue = Err e ->
  (let* bottom := nsmallest 10 ColValue t in sort_values ColValue true bottom)
  = Err e.
Proof. intros H. unfold nsmallest. rewrite H. reflexivity. Qed.

(** Whatever the frame, the only exception the selector can raise is the
    [KeyError] of a column that the frame does not have. *)
Lemma select_error_is_missing_column (t : DataFrame) (mode : string)
  (sc : option string) (e : exn) :
  select t mode sc = Err e ->
  exists c, e = KeyError (col_name c) /\ has_column t (col_name c) = false.
Proof.
  assert (Hmiss : forall c e', require_column t c = Err e' ->
            e' = KeyError (col_name c) /\ has_column t (col_name c) = false).
  { intros c e'. unfold require_column.
    destruct (has_column t (col_name c)); [discriminate|].
    intros [= <-]. split; reflexivity. }
  assert (Htop : (let* top := nlargest 10 ColValue t in
                  sort_values ColValue true top) = Err e ->
            exists c, e = KeyError (col_name c) /\ has_column t (col_name c) = false).
  { destruct (require_column t ColValue) as [[]|e'] eqn:HV.
    - rewrite (top10_frame t HV). discriminate.
    - rewrite (top10_frame_err t e' HV). intros [= <-].
      exists ColValue. apply Hmiss, HV. }
  assert (Hbot : (let* bottom := nsmallest 10 ColValue t in
                  sort_values ColValue true bottom) = Err e ->
            exists c, e = KeyError (col_name c) /\ has_column t (col_name c) = false).
  { destruct (require_column t ColValue) as [[]|e'] eqn:HV.
    - rewrite (bottom10_frame t HV). discriminate.
    - rewrite (bottom10_frame_err t e' HV). intros [= <-].
      exists ColValue. apply Hmiss, HV. }
  unfold select.
  destruct (show_top10 mode sc); [exact Htop|].
  unfold getitem at 1.
  destruct (require_column t ColCountry) as [[]|e'] eqn:HC; simpl.
  2:{ intros [= <-]. exists ColCountry. apply Hmiss, HC. }
  destruct (contains sc (map Country (rows t))) eqn:Ec; simpl; [|discriminate].
  destruct sc as [c|]; [|discriminate Ec].
  destruct (require_column t ColRank) as [[]|e'] eqn:HR.
  2:{ unfold lookup_rank, getitem, loc_mask. rewrite HC, HR. simpl.
      intros [= <-]. exists ColRank. apply Hmiss, HR. }
  destruct (lookup_rank_member t c HC HR Ec) as (row & _ & _ & ->). simpl.
  unfold getitem at 1. rewrite HR. simpl.
  destruct (Rank row <=? 10); [exact Htop|].
  destruct (ge_minus _ _ _); [exact Hbot|].
  rewrite (neighbors_frame t (Rank row) HR). discriminate.
Qed.

(** A selection of an indicator table has the four columns itself. *)
Lemma callers_columns (t : DataFrame) (mode : string) (sc : option string)
  (res : DataFrame) :
  indicator_header t = true -> select t mode sc = Ok res ->
  (forall c, require_column res c = Ok tt) /\
  (columns res = columns t \/ res = empty_frame indicator_columns).
Proof.
  intros Hh. rewrite (select_eq _ _ _ Hh).
  assert (Hw : forall l, (forall c, require_column (with_rows t l) c = Ok tt) /\
                         (columns (with_rows t l) = columns t \/
                          with_rows t l = empty_frame indicator_columns)).
  { intros l. split; [|left; reflexivity]. intros c.
    rewrite (require_column_columns _ t) by reflexivity.
    apply require_column_ok, Hh. }
  destruct (show_top10 mode sc); [intros [= <-]; apply Hw|].
  destruct (negb (contains sc (map Country (rows t)))).
  { intros [= <-]. split; [|right; reflexivity]. intros c. destruct c; reflexivity. }
  destruct (lookup_rank t sc) as [r|e]; simpl; [|discriminate].
  destruct (r <=? 10); [intros [= <-]; apply Hw|].
  destruct (ge_minus _ _ _); intros [= <-]; apply Hw.
Qed.

(* ================================================================== *)
(** ** The sample table is an indicator table                          *)
(* ================================================================== *)

Lemma sample_table_dense (n : nat) : dense_ranks (sample_table n).
Proof.
  unfold dense_ranks, sample_table, ranks_1_to. simpl.
  rewrite map_map, length_map, length_seq. simpl.
  apply Permutation_refl.
Qed.

Lemma sample_table_unique : unique_countries (sample_table 50).
Proof.
  unfold unique_countries. apply NoDup_ListNoDup.
  apply (bool_decide_unpack _). vm_compute. reflexivity.
Qed.

Lemma sample_table_consistent (n : nat) : rank_consistent (sample_table n).
Proof.
  intros a b Ha Hb. simpl in Ha, Hb.
  apply in_map_iff in Ha, Hb.
  destruct Ha as (i & <- & _), Hb as (j & <- & _). simpl.
  intros H. rewrite <- Zlt_Qlt. lia.
Qed.

Lemma sample_table_In (n i : nat) :
  (1 <= i <= n)%nat -> In (sample_row i) (rows (sample_table n)).
Proof. intros H. simpl. apply in_map, in_seq. lia. Qed.

(** The examples of the specification, on the fifty-row table: around
    rank 30 the ranks 25 to 34; around rank 45 the ten smallest Values,
    smallest first; nothing for a country that is not there. *)
Example select_rank_30 :
  option_map (map Rank) (match select (sample_table 50) "country"
                                 (Some (Country (sample_row 30))) with
                         | Ok res => Some (rows res)
                         | Err _ => None
                         end)
  = Some [25; 26; 27; 28; 29; 30; 31; 32; 33; 34].
Proof. vm_compute. reflexivity. Qed.

Example select_rank_45 :
  option_map (map Rank) (match select (sample_table 50) "country"
                                 (Some (Country (sample_row 45))) with
                         | Ok res => Some (rows res)
                         | Err _ => None
                         end)
  = Some [50; 49; 48; 47; 46; 45; 44; 43; 42; 41].
Proof. vm_compute. reflexivity. Qed.

Example select_top10_sample :
  option_map (map Rank) (match select (sample_table 50) "top10" None with
                         | Ok res => Some (rows res)
                         | Err _ => None
                         end)
  = Some [10; 9; 8; 7; 6; 5; 4; 3; 2; 1].
Proof. vm_compute. reflexivity. Qed.

Example select_Atlantis :
  select (sample_table 50) "country" (Some "Atlantis")
  = Ok (empty_frame indicator_columns).
Proof. vm_compute. reflexivity. Qed.

(* ================================================================== *)
(** ** Properties of the selector                                      *)
(* ================================================================== *)

(** C1. On a table with dense ranks 1..N, for a country of the table
    whose rank r satisfies 10 < r < N - 10, the selection around that
    country is the 10 rows of rank r-5 to r+4, in ascending rank order,
    and the country's own row is among them. *)
Theorem select_around_country_neighbors (t : DataFrame) (row : Row) :
  indicator_header t = true -> unique_countries t -> dense_ranks t ->
  In row (rows t) ->
  10 < Rank row < Z.of_nat (length (rows t)) - 10 ->
  exists res,
    select t "country" (Some (Country row)) = Ok res /\
    length (rows res) = 10%nat /\
    map Rank (rows res) = Z_interval (Rank row - 5) 10 /\
    (forall x, In x (rows res) <->
               In x (rows t) /\ Rank row - 5 <= Rank x <= Rank row + 4) /\
    In row (rows res).
Proof.
  intros Hh Hu Hd Hin Hr.
  exists (with_rows t (neighbor_rows (rows t) (Rank row))).
  assert (Hne : rows t <> []) by (destruct (rows t); [contradiction|discriminate]).
  assert (Hranks : map Rank (neighbor_rows (rows t) (Rank row))
                   = Z_interval (Rank row - 5) 10)
    by (apply neighbor_rows_ranks; [exact Hd|lia|lia]).
  split; [|split; [|split; [|split]]].
  - rewrite (select_eq _ _ _ Hh). simpl.
    assert (Hc : contains (Some (Country row)) (map Country (rows t)) = true)
      by (apply contains_Some, in_map, Hin).
    simpl in Hc. rewrite Hc. simpl.
    rewrite (lookup_rank_unique t row Hh Hu Hin). simpl.
    rewrite (dense_ranks_max t Hd Hne). simpl.
    destruct (Rank row <=? 10) eqn:E1; [lia|].
    destruct (Rank row >=? Z.of_nat (length (rows t)) - 10) eqn:E2; [lia|].
    reflexivity.
  - simpl. rewrite <- (length_map Rank), Hranks. reflexivity.
  - exact Hranks.
  - intros x. simpl. apply neighbor_rows_In.
  - simpl. apply neighbor_rows_In. split; [exact Hin|lia].
Qed.

Lemma select_around_country_neighbors_witness :
  exists res,
    select (sample_table 50) "country" (Some (Country (sample_row 30))) = Ok res /\
    length (rows res) = 10%nat /\
    map Rank (rows res) = Z_interval (Rank (sample_row 30) - 5) 10 /\
    (forall x, In x (rows res) <->
               In x (rows (sample_table 50)) /\
               Rank (sample_row 30) - 5 <= Rank x <= Rank (sample_row 30) + 4) /\
    In (sample_row 30) (rows res).
Proof.
  apply (select_around_country_neighbors (sample_table 50) (sample_row 30)).
  - reflexivity.
  - exact sample_table_unique.
  - apply sample_table_dense.
  - apply sample_table_In. lia.
  - simpl. lia.
Defined.

(** C2. In top-ten mode, and in country mode when no country has been
    chosen, the selection has min(10, |table|) rows, they are rows of the
    largest Value, and they are in ascending order of Value. *)
Theorem select_top_ten (t : DataFrame) (mode : string) (sc : option string) :
  indicator_header t = true ->
  mode = "top10" \/ (mode = "country" /\ sc = None) ->
  exists res,
    select t mode sc = Ok res /\
    length (rows res) = Nat.min 10 (length (rows t)) /\
    largest_by_Value (rows t) (rows res) /\
    ascending_by_Value (rows res).
Proof.
  intros Hh Hm. exists (with_rows t (top10_rows (rows t))).
  split; [|split; [|split]].
  - rewrite (select_eq _ _ _ Hh).
    destruct Hm as [-> | [-> ->]]; reflexivity.
  - apply top10_rows_length.
  - apply top10_rows_largest.
  - apply top10_rows_ascending.
Qed.

Lemma select_top_ten_witness :
  exists res,
    select (sample_table 50) "country" None = Ok res /\
    length (rows res) = Nat.min 10 (length (rows (sample_table 50))) /\
    largest_by_Value (rows (sample_table 50)) (rows res) /\
    ascending_by_Value (rows res).
Proof.
  apply (select_top_ten (sample_table 50) "country" None).
  - reflexivity.
  - right. split; reflexivity.
Defined.

(** C3. On a table with dense ranks 1..N, for a country of the table
    whose rank r satisfies r > 10 and r >= N - 10, the selection around
    that country is 10 rows of the smallest Value, in ascending order of
    Value. *)
Theorem select_around_country_bottom (t : DataFrame) (row : Row) :
  indicator_header t = true -> unique_countries t -> dense_ranks t ->
  In row (rows t) ->
  Rank row > 10 -> Rank row >= Z.of_nat (length (rows t)) - 10 ->
  exists res,
    select t "country" (Some (Country row)) = Ok res /\
    length (rows res) = 10%nat /\
    smallest_by_Value (rows t) (rows res) /\
    ascending_by_Value (rows res).
Proof.
  intros Hh Hu Hd Hin Hr1 Hr2.
  exists (with_rows t (bottom10_rows (rows t))).
  assert (Hne : rows t <> []) by (destruct (rows t); [contradiction|discriminate]).
  pose proof (dense_ranks_range t row Hd Hin) as Hrange.
  split; [|split; [|split]].
  - rewrite (select_eq _ _ _ Hh). simpl.
    assert (Hc : contains (Some (Country row)) (map Country (rows t)) = true)
      by (apply contains_Some, in_map, Hin).
    simpl in Hc. rewrite Hc. simpl.
    rewrite (lookup_rank_unique t row Hh Hu Hin). simpl.
    rewrite (dense_ranks_max t Hd Hne). simpl.
    destruct (Rank row <=? 10) eqn:E1; [lia|].
    destruct (Rank row >=? Z.of_nat (length (rows t)) - 10) eqn:E2; [|lia].
    reflexivity.
  - simpl. rewrite bottom10_rows_length. lia.
  - apply bottom10_rows_smallest.
  - apply bottom10_rows_ascending.
Qed.

Lemma select_around_country_bottom_witness :
  exists res,
    select (sample_table 50) "country" (Some (Country (sample_row 45))) = Ok res /\
    length (rows res) = 10%nat /\
    smallest_by_Value (rows (sample_table 50)) (rows res) /\
    ascending_by_Value (rows res).
Proof.
  apply (select_around_country_bottom (sample_table 50) (sample_row 45)).
  - reflexivity.
  - exact sample_table_unique.
  - apply sample_table_dense.
  - apply sample_table_In. lia.
  - simpl. lia.
  - simpl. lia.
Defined.

(** C4. For a country of the table whose rank is at most 10, the
    selection around that country is the very selection of top-ten mode:
    the rows of the largest Value, in ascending order of Value. *)
Theorem select_around_leading_country (t : DataFrame) (row : Row)
  (sc : option string) :
  indicator_header t = true -> unique_countries t ->
  In row (rows t) -> Rank row <= 10 ->
  select t "country" (Some (Country row)) = select t "top10" sc /\
  exists res,
    select t "country" (Some (Country row)) = Ok res /\
    length (rows res) = Nat.min 10 (length (rows t)) /\
    largest_by_Value (rows t) (rows res) /\
    ascending_by_Value (rows res).
Proof.
  intros Hh Hu Hin Hr.
  assert (Heq : select t "country" (Some (Country row))
                = Ok (with_rows t (top10_rows (rows t)))).
  { rewrite (select_eq _ _ _ Hh). simpl.
    assert (Hc : contains (Some (Country row)) (map Country (rows t)) = true)
      by (apply contains_Some, in_map, Hin).
    simpl in Hc. rewrite Hc. simpl.
    rewrite (lookup_rank_unique t row Hh Hu Hin). simpl.
    destruct (Rank row <=? 10) eqn:E1; [reflexivity|lia]. }
  split.
  - rewrite Heq, (select_eq _ _ _ Hh). reflexivity.
  - exists (with_rows t (top10_rows (rows t))).
    split; [exact Heq|split; [|split]].
    + apply top10_rows_length.
    + apply top10_rows_largest.
    + apply top10_rows_ascending.
Qed.

Lemma select_around_leading_country_witness :
  select (sample_table 50) "country" (Some (Country (sample_row 7)))
  = select (sample_table 50) "top10" None /\
  exists res,
    select (sample_table 50) "country" (Some (Country (sample_row 7))) = Ok res /\
    length (rows res) = Nat.min 10 (length (rows (sample_table 50))) /\
    largest_by_Value (rows (sample_table 50)) (rows res) /\
    ascending_by_Value (rows res).
Proof.
  apply (select_around_leading_country (sample_table 50) (sample_row 7) None).
  - reflexivity.
  - exact sample_table_unique.
  - apply sample_table_In. lia.
  - simpl. lia.
Defined.

(** C5. For a country that is not in the table the selection around it
    is a frame without rows, and the selector raises no exception,
    whatever the table (with the columns of the data model), the mode and
    the selected country. *)
Theorem select_absent_country (t : DataFrame) :
  indicator_header t = true ->
  (forall c, ~ In c (map Country (rows t)) ->
     exists res, select t "country" (Some c) = Ok res /\ rows res = []) /\
  (forall mode sc, exists res, select t mode sc = Ok res).
Proof.
  intros Hh. split.
  - intros c Hc. exists (empty_frame indicator_columns). split; [|reflexivity].
    rewrite (select_eq _ _ _ Hh). simpl.
    destruct (existsb (String.eqb c) (map Country (rows t))) eqn:E; [|reflexivity].
    exfalso. apply Hc. apply (contains_Some c). exact E.
  - intros mode sc. apply select_total, Hh.
Qed.

Lemma select_absent_country_witness :
  (forall c, ~ In c (map Country (rows (sample_table 50))) ->
     exists res, select (sample_table 50) "country" (Some c) = Ok res /\
                 rows res = []) /\
  (forall mode sc, exists res, select (sample_table 50) mode sc = Ok res).
Proof.
  apply (select_absent_country (sample_table 50)). reflexivity.
Defined.

(** C6, as stated, at the empty table in top-ten mode: the result has no
    rows although the mode is not ShowAroundCountry. *)
Lemma no_rows_in_top_ten_mode :
  indicator_header (sample_table 0) = true /\
  unique_countries (sample_table 0) /\
  dense_ranks (sample_table 0) /\
  ~ no_rows_only_if_country_absent (sample_table 0) "top10" None.
Proof.
  split; [reflexivity|]. split; [constructor|].
  split; [apply sample_table_dense|].
  intros H. destruct (H (sample_table 0)) as [Hm _].
  - reflexivity.
  - reflexivity.
  - discriminate Hm.
Qed.

(** C6, amended. On an indicator table the selection has at most 10
    rows; it has no rows only when the table has none, or when the mode
    is ShowAroundCountry(c) and c is not in the table. *)
Theorem select_at_most_ten_rows (t : DataFrame) (mode : string)
  (sc : option string) (res : DataFrame) :
  indicator_header t = true -> dense_ranks t ->
  mode = "top10" \/ mode = "country" ->
  select t mode sc = Ok res ->
  (length (rows res) <= 10)%nat /\
  (length (rows res) = 0%nat ->
     rows t = [] \/
     (mode = "country" /\ exists c, sc = Some c /\ ~ In c (map Country (rows t)))).
Proof.
  intros Hh Hd Hm. rewrite (select_eq _ _ _ Hh).
  assert (Htop : (length (top10_rows (rows t)) <= 10)%nat /\
                 (length (top10_rows (rows t)) = 0%nat -> rows t = [])).
  { rewrite top10_rows_length. split; [lia|].
    destruct (rows t); [reflexivity|simpl; lia]. }
  assert (Hbot : (length (bottom10_rows (rows t)) <= 10)%nat /\
                 (length (bottom10_rows (rows t)) = 0%nat -> rows t = [])).
  { rewrite bottom10_rows_length. split; [lia|].
    destruct (rows t); [reflexivity|simpl; lia]. }
  destruct (show_top10 mode sc) eqn:Etop.
  { intros [= <-]. simpl. split; [tauto|]. intros H. left. tauto. }
  destruct (contains sc (map Country (rows t))) eqn:Ec; simpl.
  2:{ intros [= <-]. simpl. split; [lia|]. intros _. right.
      destruct Hm as [-> | ->]; [discriminate Etop|].
      split; [reflexivity|].
      destruct sc as [c|]; [|discriminate Etop].
      exists c. split; [reflexivity|].
      intros Hin. apply (contains_Some c) in Hin. congruence. }
  destruct sc as [c|]; [|discriminate Ec].
  destruct (lookup_rank_member t c (require_column_ok t _ Hh)
              (require_column_ok t _ Hh) Ec) as (row & Hrow & Hc & ->).
  simpl. destruct (Rank row <=? 10).
  { intros [= <-]. simpl. split; [tauto|]. intros H. left. tauto. }
  destruct (ge_minus _ _ _).
  { intros [= <-]. simpl. split; [tauto|]. intros H. left. tauto. }
  intros [= <-]. simpl. split.
  - apply neighbor_rows_at_most_10, dense_ranks_NoDup, Hd.
  - intros H. exfalso.
    assert (Hn : In row (neighbor_rows (rows t) (Rank row)))
      by (apply neighbor_rows_In; split; [exact Hrow|lia]).
    destruct (neighbor_rows (rows t) (Rank row)); [contradiction|discriminate].
Qed.

Lemma select_at_most_ten_rows_witness :
  (length (rows (empty_frame indicator_columns)) <= 10)%nat /\
  (length (rows (empty_frame indicator_columns)) = 0%nat ->
     rows (sample_table 50) = [] \/
     ("country" = "country" /\
      exists c, Some "Atlantis" = Some c /\
                ~ In c (map Country (rows (sample_table 50))))).
Proof.
  apply (select_at_most_ten_rows (sample_table 50) "country" (Some "Atlantis")
           (empty_frame indicator_columns)).
  - reflexivity.
  - apply sample_table_dense.
  - right. reflexivity.
  - vm_compute. reflexivity.
Defined.

(** C8. The read of the selected country's rank comes after the
    membership test: the selector never raises [IndexError], on any
    frame; and on an indicator table, a country that passes the test has
    a matching row whose rank the read returns, a selection that fails
    the test would make the read raise but the selector returns the empty
    frame instead, and the selector always returns. *)
Theorem rank_lookup_is_guarded (t : DataFrame) (mode : string)
  (sc : option string) :
  select t mode sc <> Err IndexError /\
  (indicator_header t = true ->
   (forall c, contains (Some c) (map Country (rows t)) = true ->
      exists row, In row (rows t) /\ Country row = c /\
                  lookup_rank t (Some c) = Ok (Rank row)) /\
   (contains sc (map Country (rows t)) = false ->
      lookup_rank t sc = Err IndexError /\
      (show_top10 mode sc = false ->
       select t mode sc = Ok (empty_frame indicator_columns))) /\
   exists res, select t mode sc = Ok res).
Proof.
  split.
  - intros H. apply select_error_is_missing_column in H.
    destruct H as (c & Hc & _). discriminate Hc.
  - intros Hh.
    pose proof (require_column_ok t ColCountry Hh) as HC.
    pose proof (require_column_ok t ColRank Hh) as HR.
    split; [|split].
    + intros c Hc. apply lookup_rank_member; assumption.
    + intros Hc. split.
      * apply lookup_rank_non_member; assumption.
      * intros Htop. rewrite (select_eq _ _ _ Hh), Htop, Hc. reflexivity.
    + apply select_total, Hh.
Qed.

Lemma rank_lookup_is_guarded_witness :
  select (sample_table 50) "country" (Some "Atlantis") <> Err IndexError /\
  (indicator_header (sample_table 50) = true ->
   (forall c, contains (Some c) (map Country (rows (sample_table 50))) = true ->
      exists row, In row (rows (sample_table 50)) /\ Country row = c /\
                  lookup_rank (sample_table 50) (Some c) = Ok (Rank row)) /\
   (contains (Some "Atlantis") (map Country (rows (sample_table 50))) = false ->
      lookup_rank (sample_table 50) (Some "Atlantis") = Err IndexError /\
      (show_top10 "country" (Some "Atlantis") = false ->
       select (sample_table 50) "country" (Some "Atlantis")
       = Ok (empty_frame indicator_columns))) /\
   exists res, select (sample_table 50) "country" (Some "Atlantis") = Ok res).
Proof.
  exact (rank_lookup_is_guarded (sample_table 50) "country" (Some "Atlantis")).
Defined.

(** C9. What the callers do with a selection (sort it by Rank, either
    way, and project it on Country_with_rank) succeeds on every result of
    the selector, and in the country-not-found case the result is the
    frame without rows whose columns are exactly Country, Value, Rank and
    Country_with_rank. *)
Theorem callers_succeed_on_selection (t : DataFrame) (mode : string)
  (sc : option string) (res : DataFrame) :
  indicator_header t = true ->
  select t mode sc = Ok res ->
  (forall c, require_column res c = Ok tt) /\
  (exists s, sort_values ColRank false res = Ok s /\
             length (rows s) = length (rows res)) /\
  (exists s shown,
     sort_values ColRank true res = Ok s /\
     length (rows s) = length (rows res) /\
     getitem_list s [ColCountry_with_rank] = Ok shown /\
     to_dict_records shown
     = map (fun r => [("Country_with_rank", CStr (Country_with_rank r))]) (rows s)) /\
  (show_top10 mode sc = false ->
   contains sc (map Country (rows t)) = false ->
   columns res = ["Country"; "Value"; "Rank"; "Country_with_rank"] /\
   rows res = [] /\
   sort_values ColRank false res = Ok res /\
   sort_values ColRank true res = Ok res /\
   (let* shown := getitem_list res [ColCountry_with_rank] in
    Ok (to_dict_records shown)) = Ok []).
Proof.
  intros Hh Hsel.
  destruct (callers_columns t mode sc res Hh Hsel) as [Hcols _].
  split; [exact Hcols|]. split; [|split].
  - rewrite (sort_values_ok _ _ _ (Hcols ColRank)).
    eexists. split; [reflexivity|]. simpl. apply stable_sort_length.
  - rewrite (sort_values_ok _ _ _ (Hcols ColRank)).
    eexists. eexists. split; [reflexivity|].
    split; [simpl; apply stable_sort_length|].
    split.
    + apply getitem_list_single.
      rewrite (require_column_columns _ res) by reflexivity. apply Hcols.
    + reflexivity.
  - intros Htop Hc. revert Hsel.
    rewrite (select_eq _ _ _ Hh), Htop, Hc. simpl.
    intros [= <-]. repeat split; reflexivity.
Qed.

Lemma callers_succeed_on_selection_witness :
  (forall c, require_column (empty_frame indicator_columns) c = Ok tt) /\
  (exists s, sort_values ColRank false (empty_frame indicator_columns) = Ok s /\
             length (rows s) = length (rows (empty_frame indicator_columns))) /\
  (exists s shown,
     sort_values ColRank true (empty_frame indicator_columns) = Ok s /\
     length (rows s) = length (rows (empty_frame indicator_columns)) /\
     getitem_list s [ColCountry_with_rank] = Ok shown /\
     to_dict_records shown
     = map (fun r => [("Country_with_rank", CStr (Country_with_rank r))]) (rows s)) /\
  (show_top10 "country" (Some "Atlantis") = false ->
   contains (Some "Atlantis") (map Country (rows (sample_table 50))) = false ->
   columns (empty_frame indicator_columns)
   = ["Country"; "Value"; "Rank"; "Country_with_rank"] /\
   rows (empty_frame indicator_columns) = [] /\
   sort_values ColRank false (empty_frame indicator_columns)
   = Ok (empty_frame indicator_columns) /\
   sort_values ColRank true (empty_frame indicator_columns)
   = Ok (empty_frame indicator_columns) /\
   (let* shown := getitem_list (empty_frame indicator_columns) [ColCountry_with_rank] in
    Ok (to_dict_records shown)) = Ok []).
Proof.
  apply (callers_succeed_on_selection (sample_table 50) "country"
           (Some "Atlantis") (empty_frame indicator_columns)).
  - reflexivity.
  - vm_compute. reflexivity.
Defined.

(** C7. [return_chart_data] is a function of the stored table: called
    twice in a row with the same arguments it yields the same frame (or
    raises the same exception), the frame it returns is a new object, and
    every object that was live before the calls, the stored table among
    them, is unchanged after them. *)
Theorem return_chart_data_is_pure (indicator_dfs : gmap string ref)
  (indicator_name mode : string) (sc : option string) (h : heap)
  (stored : ref) (t : DataFrame) :
  indicator_dfs !! indicator_name = Some stored ->
  h !! stored = Some t ->
  exists r1 h1 r2 h2,
    return_chart_data indicator_dfs indicator_name mode sc h = (r1, h1) /\
    return_chart_data indicator_dfs indicator_name mode sc h1 = (r2, h2) /\
    h1 !! stored = Some t /\ h2 !! stored = Some t /\
    h ⊆ h1 /\ h1 ⊆ h2 /\
    match r1, r2 with
    | Ok l1, Ok l2 =>
        h !! l1 = None /\ h1 !! l2 = None /\
        exists res, select t mode sc = Ok res /\
                    h1 !! l1 = Some res /\ h2 !! l1 = Some res /\
                    h2 !! l2 = Some res
    | Err e1, Err e2 => e1 = e2 /\ select t mode sc = Err e1
    | _, _ => False
    end.
Proof.
  intros Hd Hh.
  pose proof (return_chart_data_run indicator_dfs indicator_name mode sc h
                stored t Hd Hh) as Hrun1. simpl in Hrun1.
  set (ha := <[fresh (dom h) := t]> h) in *.
  assert (Hsub_a : h ⊆ ha) by apply alloc_extends.
  destruct (select t mode sc) as [res|e] eqn:Hsel.
  - set (h1 := <[fresh (dom ha) := res]> ha) in *.
    assert (Hsub1 : ha ⊆ h1) by apply alloc_extends.
    assert (Hh1 : h1 !! stored = Some t).
    { eapply lookup_weaken; [|exact Hsub1]. eapply lookup_weaken; eassumption. }
    pose proof (return_chart_data_run indicator_dfs indicator_name mode sc h1
                  stored t Hd Hh1) as Hrun2. simpl in Hrun2.
    rewrite Hsel in Hrun2.
    set (hb := <[fresh (dom h1) := t]> h1) in *.
    assert (Hsub_b : h1 ⊆ hb) by apply alloc_extends.
    set (h2 := <[fresh (dom hb) := res]> hb) in *.
    assert (Hsub2 : hb ⊆ h2) by apply alloc_extends.
    assert (Hl1 : h1 !! fresh (dom ha) = Some res) by apply lookup_insert_eq.
    exists (Ok (fresh (dom ha))), h1, (Ok (fresh (dom hb))), h2.
    split; [exact Hrun1|]. split; [exact Hrun2|].
    split; [exact Hh1|].
    split; [eapply lookup_weaken; [|exact Hsub2]; eapply lookup_weaken; eassumption|].
    split; [etrans; eassumption|]. split; [etrans; eassumption|].
    split.
    { destruct (h !! fresh (dom ha)) as [df|] eqn:E; [|reflexivity].
      pose proof (lookup_weaken _ _ _ _ E Hsub_a) as E'.
      rewrite fresh_not_live in E'. discriminate. }
    split.
    { destruct (h1 !! fresh (dom hb)) as [df|] eqn:E; [|reflexivity].
      pose proof (lookup_weaken _ _ _ _ E Hsub_b) as E'.
      rewrite fresh_not_live in E'. discriminate. }
    exists res. split; [reflexivity|]. split; [exact Hl1|].
    split; [|apply lookup_insert_eq].
    eapply lookup_weaken; [|exact Hsub2]. eapply lookup_weaken; eassumption.
  - assert (Hh1 : ha !! stored = Some t) by (eapply lookup_weaken; eassumption).
    pose proof (return_chart_data_run indicator_dfs indicator_name mode sc ha
                  stored t Hd Hh1) as Hrun2. simpl in Hrun2.
    rewrite Hsel in Hrun2.
    exists (Err e), ha, (Err e), (<[fresh (dom ha) := t]> ha).
    split; [exact Hrun1|]. split; [exact Hrun2|].
    split; [exact Hh1|].
    split; [eapply lookup_weaken; [exact Hh1|apply alloc_extends]|].
    split; [exact Hsub_a|]. split; [apply alloc_extends|].
    split; reflexivity.
Qed.

Lemma return_chart_data_is_pure_witness :
  exists r1 h1 r2 h2,
    return_chart_data {[ "GDP" := 1%positive ]} "GDP" "country"
      (Some (Country (sample_row 30))) {[ 1%positive := sample_table 50 ]}
    = (r1, h1) /\
    return_chart_data {[ "GDP" := 1%positive ]} "GDP" "country"
      (Some (Country (sample_row 30))) h1
    = (r2, h2) /\
    h1 !! 1%positive = Some (sample_table 50) /\
    h2 !! 1%positive = Some (sample_table 50) /\
    ({[ 1%positive := sample_table 50 ]} : heap) ⊆ h1 /\ h1 ⊆ h2 /\
    match r1, r2 with
    | Ok l1, Ok l2 =>
        ({[ 1%positive := sample_table 50 ]} : heap) !! l1 = None /\
        h1 !! l2 = None /\
        exists res,
          select (sample_table 50) "country" (Some (Country (sample_row 30)))
          = Ok res /\
          h1 !! l1 = Some res /\ h2 !! l1 = Some res /\ h2 !! l2 = Some res
    | Err e1, Err e2 =>
        e1 = e2 /\
        select (sample_table 50) "country" (Some (Country (sample_row 30)))
        = Err e1
    | _, _ => False
    end.
Proof.
  apply (return_chart_data_is_pure {[ "GDP" := 1%positive ]} "GDP" "country"
           (Some (Country (sample_row 30))) {[ 1%positive := sample_table 50 ]}
           1%positive (sample_table 50)).
  - apply lookup_singleton_eq.
  - apply lookup_singleton_eq.
Defined.

(* ================================================================== *)
(** ** The callers, run on the store                                   *)
(* ================================================================== *)

(** Every branch of [create_chart] is the default bar chart. *)
Lemma create_chart_is_bar_chart {Figure : Type}
  (draw_bar_chart : string -> option string -> ref -> M Figure)
  (indicator_dfs : gmap string ref) (indicator_name mode : string)
  (sc : option string) :
  create_chart draw_bar_chart indicator_dfs indicator_name mode sc
  = create_bar_chart draw_bar_chart indicator_dfs indicator_name mode sc.
Proof.
  unfold create_chart.
  destruct (chart_configs !! indicator_name) as [cfg|]; [|reflexivity].
  repeat case_bool_decide; reflexivity.
Qed.

(** The records shown for a selection: the Country_with_rank of its rows
    in rank order. *)
Lemma create_countries_list_run (indicator_dfs : gmap string ref)
  (indicator_name mode : string) (sc : option string) (h : heap)
  (stored : ref) (t res : DataFrame) :
  indicator_dfs !! indicator_name = Some stored ->
  h !! stored = Some t ->
  indicator_header t = true ->
  select t mode sc = Ok res ->
  exists h',
    create_countries_list indicator_dfs indicator_name mode sc h
    = (Ok (map (fun r => [("Country_with_rank", CStr (Country_with_rank r))])
             (stable_sort (row_before ColRank true) (rows res))), h') /\
    h ⊆ h' /\ h' !! stored = Some t.
Proof.
  intros Hd Hh Hhdr Hsel.
  destruct (callers_columns t mode sc res Hhdr Hsel) as [Hcols _].
  unfold create_countries_list, bindM.
  rewrite (return_chart_data_run _ _ _ _ _ _ _ Hd Hh), Hsel.
  unfold new_frame_from, bindM, deref, alloc, lift.
  rewrite lookup_insert_eq.
  rewrite (sort_values_ok _ _ _ (Hcols ColRank)). unfold ret.
  rewrite lookup_insert_eq.
  rewrite getitem_list_single
    by (rewrite (require_column_columns _ res) by reflexivity; apply Hcols).
  eexists. split; [reflexivity|].
  assert (Hsub : h ⊆ <[fresh (dom (<[fresh (dom (<[fresh (dom h):=t]> h)):=res]>
                                     (<[fresh (dom h):=t]> h))) :=
                        with_rows res (stable_sort (row_before ColRank true) (rows res))]>
                       (<[fresh (dom (<[fresh (dom h):=t]> h)):=res]>
                          (<[fresh (dom h):=t]> h))).
  { etrans; [apply alloc_extends|]. etrans; apply alloc_extends. }
  split; [exact Hsub|]. eapply lookup_weaken; eassumption.
Qed.

(** The table loop of [update_all] computes, for each table, the records
    that [create_countries_list] computes. *)
Lemma update_table_run (indicator_dfs : gmap string ref) (m : string)
  (country : option string) (id : comp_id) (h : heap) :
  exists style,
    update_table indicator_dfs m country id h =
      match create_countries_list indicator_dfs (indicator id) m country h with
      | (Ok table_data, h') => (Ok (table_data, style), h')
      | (Err e, h') => (Err e, h')
      end.
Proof.
  eexists. unfold update_table, create_countries_list, bindM.
  destruct (return_chart_data indicator_dfs (indicator id) m country h)
    as [[chart|e] h1]; [|reflexivity].
  destruct (new_frame_from (sort_values ColRank true) chart h1)
    as [[df_chart|e] h2]; [|reflexivity].
  destruct (deref df_chart h2) as [[df|e] h3]; [|reflexivity].
  destruct (lift (getitem_list df [ColCountry_with_rank]) h3)
    as [[shown|e] h4]; reflexivity.
Qed.

(* ================================================================== *)
(** ** What a selection is made of                                     *)
(* ================================================================== *)

(** The selector on any frame, when it returns: which branch produced the
    result. *)
Lemma select_ok_inv (t : DataFrame) (mode : string) (sc : option string)
  (res : DataFrame) :
  select t mode sc = Ok res ->
  if show_top10 mode sc then res = with_rows t (top10_rows (rows t))
  else if negb (contains sc (map Country (rows t))) then
    res = empty_frame indicator_columns
  else
    exists r, lookup_rank t sc = Ok r /\
      if r <=? 10 then res = with_rows t (top10_rows (rows t))
      else if ge_minus r (series_max (map Rank (rows t))) 10 then
        res = with_rows t (bottom10_rows (rows t))
      else res = with_rows t (neighbor_rows (rows t) r).
Proof.
  assert (Htop : (let* top := nlargest 10 ColValue t in
                  sort_values ColValue true top) = Ok res ->
                 res = with_rows t (top10_rows (rows t))).
  { destruct (require_column t ColValue) as [[]|e'] eqn:HV.
    - rewrite (top10_frame t HV). intros [= <-]. reflexivity.
    - rewrite (top10_frame_err t e' HV). discriminate. }
  assert (Hbot : (let* bottom := nsmallest 10 ColValue t in
                  sort_values ColValue true bottom) = Ok res ->
                 res = with_rows t (bottom10_rows (rows t))).
  { destruct (require_column t ColValue) as [[]|e'] eqn:HV.
    - rewrite (bottom10_frame t HV). intros [= <-]. reflexivity.
    - rewrite (bottom10_frame_err t e' HV). discriminate. }
  unfold select.
  destruct (show_top10 mode sc); [exact Htop|].
  unfold getitem at 1.
  destruct (require_column t ColCountry) as [[]|e'] eqn:HC; simpl; [|discriminate].
  destruct (negb (contains sc (map Country (rows t)))).
  { intros [= <-]. reflexivity. }
  destruct (lookup_rank t sc) as [r|e'] eqn:Hr; simpl; [|discriminate].
  unfold getitem at 1.
  destruct (require_column t ColRank) as [[]|e'] eqn:HR; simpl; [|discriminate].
  intros H. exists r. split; [reflexivity|].
  destruct (r <=? 10); [exact (Htop H)|].
  destruct (ge_minus _ _ _); [exact (Hbot H)|].
  rewrite (neighbors_frame t r HR) in H. injection H as <-. reflexivity.
Qed.

Lemma filter_split_perm {A : Type} (p : A -> bool) (l : list A) :
  Permutation l (List.filter p l ++ List.filter (fun x => negb (p x)) l).
Proof.
  induction l as [|x l IH]; simpl; [apply perm_nil|].
  destruct (p x); simpl.
  - apply perm_skip, IH.
  - apply Permutation_cons_app, IH.
Qed.

Lemma select_rows_split (t : DataFrame) (mode : string) (sc : option string)
  (res : DataFrame) :
  select t mode sc = Ok res ->
  (exists rest, Permutation (rows t) (rows res ++ rest)) /\
  (columns res = columns t \/ res = empty_frame indicator_columns).
Proof.
  intros Hsel. apply select_ok_inv in Hsel.
  assert (Htop : res = with_rows t (top10_rows (rows t)) ->
            (exists rest, Permutation (rows t) (rows res ++ rest)) /\
            (columns res = columns t \/ res = empty_frame indicator_columns)).
  { intros ->. split; [|left; reflexivity].
    eexists. apply prefix_of_sorted_split. }
  destruct (show_top10 mode sc); [exact (Htop Hsel)|].
  destruct (negb (contains sc (map Country (rows t)))).
  { subst res. split; [|right; reflexivity].
    exists (rows t). apply Permutation_refl. }
  destruct Hsel as (r & _ & Hsel).
  destruct (r <=? 10); [exact (Htop Hsel)|].
  destruct (ge_minus _ _ _); subst res; (split; [|left; reflexivity]).
  - eexists. apply prefix_of_sorted_split.
  - eexists. simpl. unfold neighbor_rows.
    eapply Permutation_trans; [apply (filter_split_perm
      (fun x => (Rank x >=? r - 5) && (Rank x <=? r + 4)))|].
    apply Permutation_app_tail, Permutation_sym, stable_sort_perm.
Qed.

Lemma select_rows_In (t : DataFrame) (mode : string) (sc : option string)
  (res : DataFrame) (x : Row) :
  select t mode sc = Ok res -> In x (rows res) -> In x (rows t).
Proof.
  intros Hsel Hx. destruct (select_rows_split _ _ _ _ Hsel) as [[rest Hperm] _].
  eapply Permutation_in; [apply Permutation_sym, Hperm|].
  apply in_or_app. left. exact Hx.
Qed.

(** X1. Whatever the frame, the mode and the selected country, when the
    selector returns it returns rows of the frame, none more often than
    the frame has it, under the frame's own header or, in the
    country-not-found case, the four-column header. *)
Theorem select_returns_rows_of_table (t : DataFrame) (mode : string)
  (sc : option string) (res : DataFrame) :
  select t mode sc = Ok res ->
  (exists rest, Permutation (rows t) (rows res ++ rest)) /\
  (forall x, In x (rows res) -> In x (rows t)) /\
  (columns res = columns t \/ res = empty_frame indicator_columns).
Proof.
  intros Hsel. destruct (select_rows_split _ _ _ _ Hsel) as [Hperm Hcols].
  split; [exact Hperm|]. split; [|exact Hcols].
  intros x. apply (select_rows_In _ _ _ _ _ Hsel).
Qed.

Lemma select_returns_rows_of_table_witness :
  (exists rest, Permutation (rows (sample_table 50))
                  (rows (with_rows (sample_table 50)
                           (neighbor_rows (rows (sample_table 50)) 30)) ++ rest)) /\
  (forall x, In x (rows (with_rows (sample_table 50)
                           (neighbor_rows (rows (sample_table 50)) 30))) ->
             In x (rows (sample_table 50))) /\
  (columns (with_rows (sample_table 50)
              (neighbor_rows (rows (sample_table 50)) 30))
   = columns (sample_table 50) \/
   with_rows (sample_table 50) (neighbor_rows (rows (sample_table 50)) 30)
   = empty_frame indicator_columns).
Proof.
  apply (select_returns_rows_of_table (sample_table 50) "country"
           (Some (Country (sample_row 30)))
           (with_rows (sample_table 50)
              (neighbor_rows (rows (sample_table 50)) 30))).
  vm_compute. reflexivity.
Defined.

(* ================================================================== *)
(** ** Ranks of a selection when rank follows Value                    *)
(* ================================================================== *)

Lemma StronglySorted_weaken_In {A : Type} (R R' : A -> A -> Prop) (l : list A) :
  (forall a b, In a l -> In b l -> R a b -> R' a b) ->
  StronglySorted R l -> StronglySorted R' l.
Proof.
  intros HR Hs. induction Hs as [|x l Hl IH Hx]; constructor.
  - apply IH. intros a b Ha Hb. apply HR; right; assumption.
  - rewrite List.Forall_forall in *. intros y Hy.
    apply HR; [left; reflexivity|right; exact Hy|apply Hx, Hy].
Qed.

Lemma Z_ge_antisymm : AntiSymm eq (flip Z.le).
Proof. intros x y H1 H2. unfold flip in *. lia. Qed.

Lemma ranks_1_to_sorted (n : nat) : StronglySorted Z.le (ranks_1_to n).
Proof.
  unfold ranks_1_to. apply StronglySorted_map.
  generalize 1%nat. induction n as [|n IH]; intros s; simpl; constructor.
  - apply IH.
  - apply List.Forall_forall. intros y Hy. apply in_seq in Hy. lia.
Qed.

Lemma ranks_down_from_sorted (hi : Z) (n : nat) :
  StronglySorted (flip Z.le) (ranks_down_from hi n).
Proof.
  unfold ranks_down_from. apply StronglySorted_map.
  generalize 0%nat. induction n as [|n IH]; intros s; simpl; constructor.
  - apply IH.
  - apply List.Forall_forall. intros y Hy. apply in_seq in Hy.
    unfold flip. lia.
Qed.

Lemma in_ranks_down_from (hi z : Z) (n : nat) :
  In z (ranks_down_from hi n) <-> hi - Z.of_nat n < z <= hi.
Proof.
  unfold ranks_down_from. rewrite in_map_iff. split.
  - intros (i & <- & Hi). apply in_seq in Hi. lia.
  - intros H. exists (Z.to_nat (hi - z)). split; [lia|]. apply in_seq. lia.
Qed.

Lemma ranks_down_from_NoDup (hi : Z) (n : nat) : List.NoDup (ranks_down_from hi n).
Proof.
  unfold ranks_down_from. apply Finite.Injective_map_NoDup.
  - intros a b H. lia.
  - apply seq_NoDup.
Qed.

Lemma firstn_of_seq (k start n : nat) :
  firstn k (seq start n) = seq start (Nat.min k n).
Proof.
  revert start n. induction k as [|k IH]; intros start n; [reflexivity|].
  destruct n as [|n]; [reflexivity|]. simpl. rewrite IH. reflexivity.
Qed.

Lemma firstn_ranks_1_to (k n : nat) :
  firstn k (ranks_1_to n) = ranks_1_to (Nat.min k n).
Proof. unfold ranks_1_to. rewrite firstn_map, firstn_of_seq. reflexivity. Qed.

Lemma firstn_ranks_down_from (k : nat) (hi : Z) (n : nat) :
  firstn k (ranks_down_from hi n) = ranks_down_from hi (Nat.min k n).
Proof. unfold ranks_down_from. rewrite firstn_map, firstn_of_seq. reflexivity. Qed.

(** The ranks 1..n, each once, in any order, are a rearrangement of the
    ranks n, n-1, ..., 1. *)
Lemma ranks_1_to_down (n : nat) :
  Permutation (ranks_1_to n) (ranks_down_from (Z.of_nat n) n).
Proof.
  apply Permutation.NoDup_Permutation.
  - apply ranks_1_to_NoDup.
  - apply ranks_down_from_NoDup.
  - intros z. rewrite in_ranks_1_to, in_ranks_down_from. lia.
Qed.

Lemma ranks_down_interval (hi : Z) (n : nat) :
  Permutation (ranks_down_from hi n) (Z_interval (hi - Z.of_nat n + 1) n).
Proof.
  apply Permutation.NoDup_Permutation.
  - apply ranks_down_from_NoDup.
  - apply Z_interval_NoDup.
  - intros z. rewrite in_Z_interval, in_ranks_down_from. lia.
Qed.

(** Sorting by descending Value puts the ranks in ascending order, and
    sorting by ascending Value in descending order, when a better rank
    means a strictly larger Value. *)
Lemma sort_desc_ranks (l : list Row) (target : list Z) :
  (forall a b, In a l -> In b l -> Rank a < Rank b -> (Value b < Value a)%Q) ->
  Permutation (map Rank l) target -> StronglySorted Z.le target ->
  map Rank (stable_sort (row_before ColValue false) l) = target.
Proof.
  intros Hc Hp Hs. apply (StronglySorted_unique Z.le); [|exact Hs|].
  - apply StronglySorted_map.
    eapply StronglySorted_weaken_In;
      [| apply (stable_sort_sorted _ (Value_before_total false)
                  (Value_before_trans false))].
    intros a b Ha Hb H. apply stable_sort_In in Ha, Hb.
    simpl in H. apply Qle_bool_iff in H.
    destruct (Z_le_gt_dec (Rank a) (Rank b)) as [Hle|Hgt]; [exact Hle|].
    exfalso. apply (Qlt_not_le _ _ (Hc b a Hb Ha ltac:(lia))). exact H.
  - eapply Permutation_trans; [|exact Hp].
    apply Permutation_map, stable_sort_perm.
Qed.

Lemma sort_asc_ranks (l : list Row) (target : list Z) :
  (forall a b, In a l -> In b l -> Rank a < Rank b -> (Value b < Value a)%Q) ->
  Permutation (map Rank l) target -> StronglySorted (flip Z.le) target ->
  map Rank (stable_sort (row_before ColValue true) l) = target.
Proof.
  intros Hc Hp Hs.
  apply (@StronglySorted_unique Z (flip Z.le) Z_ge_antisymm); [|exact Hs|].
  - apply StronglySorted_map.
    eapply StronglySorted_weaken_In;
      [| apply (stable_sort_sorted _ (Value_before_total true)
                  (Value_before_trans true))].
    intros a b Ha Hb H. apply stable_sort_In in Ha, Hb.
    simpl in H. apply Qle_bool_iff in H. unfold flip.
    destruct (Z_le_gt_dec (Rank b) (Rank a)) as [Hle|Hgt]; [exact Hle|].
    exfalso. apply (Qlt_not_le _ _ (Hc a b Ha Hb ltac:(lia))). exact H.
  - eapply Permutation_trans; [|exact Hp].
    apply Permutation_map, stable_sort_perm.
Qed.

Lemma sort_by_rank_ranks (l : list Row) (target : list Z) :
  Permutation (map Rank l) target -> StronglySorted Z.le target ->
  map Rank (stable_sort (row_before ColRank true) l) = target.
Proof.
  intros Hp Hs. apply (StronglySorted_unique Z.le); [|exact Hs|].
  - apply StronglySorted_map.
    eapply StronglySorted_weaken;
      [| apply (stable_sort_sorted _ (Rank_before_total true)
                  (Rank_before_trans true))].
    intros a b H. simpl in H. lia.
  - eapply Permutation_trans; [|exact Hp].
    apply Permutation_map, stable_sort_perm.
Qed.

Lemma sort_by_rank_desc_ranks (l : list Row) (target : list Z) :
  Permutation (map Rank l) target -> StronglySorted (flip Z.le) target ->
  map Rank (stable_sort (row_before ColRank false) l) = target.
Proof.
  intros Hp Hs.
  apply (@StronglySorted_unique Z (flip Z.le) Z_ge_antisymm); [|exact Hs|].
  - apply StronglySorted_map.
    eapply StronglySorted_weaken;
      [| apply (stable_sort_sorted _ (Rank_before_total false)
                  (Rank_before_trans false))].
    intros a b H. simpl in H. unfold flip. lia.
  - eapply Permutation_trans; [|exact Hp].
    apply Permutation_map, stable_sort_perm.
Qed.

Lemma top10_rows_ranks (t : DataFrame) :
  dense_ranks t -> rank_consistent t ->
  let m := Nat.min 10 (length (rows t)) in
  map Rank (top10_rows (rows t)) = ranks_down_from (Z.of_nat m) m.
Proof.
  intros Hd Hc m. unfold top10_rows.
  set (s := stable_sort (row_before ColValue false) (rows t)).
  assert (Hs : map Rank s = ranks_1_to (length (rows t))).
  { apply sort_desc_ranks; [exact Hc|exact Hd|apply ranks_1_to_sorted]. }
  assert (Hin : forall x, In x (firstn 10 s) -> In x (rows t)).
  { intros x Hx. apply (stable_sort_In (row_before ColValue false)).
    change (In x s).
    rewrite <- (firstn_skipn 10 s). apply in_or_app. left. exact Hx. }
  apply sort_asc_ranks.
  - intros a b Ha Hb. apply Hc; apply Hin; assumption.
  - rewrite <- firstn_map, Hs, firstn_ranks_1_to. apply ranks_1_to_down.
  - apply ranks_down_from_sorted.
Qed.

Lemma bottom10_rows_ranks (t : DataFrame) :
  dense_ranks t -> rank_consistent t ->
  map Rank (bottom10_rows (rows t))
  = ranks_down_from (Z.of_nat (length (rows t))) (Nat.min 10 (length (rows t))).
Proof.
  intros Hd Hc. unfold bottom10_rows.
  set (s := stable_sort (row_before ColValue true) (rows t)).
  assert (Hs : map Rank s
               = ranks_down_from (Z.of_nat (length (rows t))) (length (rows t))).
  { apply sort_asc_ranks; [exact Hc| |apply ranks_down_from_sorted].
    eapply Permutation_trans; [exact Hd|apply ranks_1_to_down]. }
  assert (Hin : forall x, In x (firstn 10 s) -> In x (rows t)).
  { intros x Hx. apply (stable_sort_In (row_before ColValue true)).
    change (In x s).
    rewrite <- (firstn_skipn 10 s). apply in_or_app. left. exact Hx. }
  apply sort_asc_ranks.
  - intros a b Ha Hb. apply Hc; apply Hin; assumption.
  - rewrite <- firstn_map, Hs, firstn_ranks_down_from. apply Permutation_refl.
  - apply ranks_down_from_sorted.
Qed.

Lemma StronglySorted_rev {A : Type} (R : A -> A -> Prop) (l : list A) :
  StronglySorted R l -> StronglySorted (flip R) (rev l).
Proof.
  induction 1 as [|x l Hl IH Hx]; simpl; [constructor|].
  apply StronglySorted_app. split; [|split].
  - intros a b Ha Hb. apply list_elem_of_In in Ha, Hb.
    destruct Hb as [<-|[]]. apply in_rev in Ha.
    rewrite List.Forall_forall in Hx. unfold flip. apply Hx, Ha.
  - exact IH.
  - constructor; constructor.
Qed.

Lemma NoDup_map_injective {A B : Type} (f : A -> B) (l : list A) (x y : A) :
  List.NoDup (map f l) -> In x l -> In y l -> f x = f y -> x = y.
Proof.
  induction l as [|z l IH]; intros Hnd Hx Hy Hf; [contradiction|].
  simpl in Hnd. apply List.NoDup_cons_iff in Hnd. destruct Hnd as [Hz Hnd].
  destruct Hx as [->|Hx], Hy as [->|Hy].
  - reflexivity.
  - exfalso. apply Hz. rewrite Hf. apply in_map, Hy.
  - exfalso. apply Hz. rewrite <- Hf. apply in_map, Hx.
  - apply IH; assumption.
Qed.

(** The frames of the two callers, from a selection of an indicator
    table. *)
Lemma frames_of_selection (t : DataFrame) (mode : string) (sc : option string)
  (res : DataFrame) :
  indicator_header t = true -> select t mode sc = Ok res ->
  list_frame t mode sc
  = Ok (with_rows res (stable_sort (row_before ColRank true) (rows res))) /\
  chart_frame t mode sc
  = Ok (with_rows res (stable_sort (row_before ColRank false) (rows res))).
Proof.
  intros Hh Hsel. destruct (callers_columns t mode sc res Hh Hsel) as [Hcols _].
  unfold list_frame, chart_frame. rewrite Hsel. simpl.
  rewrite !(sort_values_ok _ _ _ (Hcols ColRank)). split; reflexivity.
Qed.

(** The selection around a country of the table, by the rank of the
    country. *)
Lemma select_country_eq (t : DataFrame) (row : Row) :
  indicator_header t = true -> unique_countries t -> dense_ranks t ->
  In row (rows t) ->
  select t "country" (Some (Country row))
  = Ok (with_rows t
          (if Rank row <=? 10 then top10_rows (rows t)
           else if Rank row >=? Z.of_nat (length (rows t)) - 10
                then bottom10_rows (rows t)
                else neighbor_rows (rows t) (Rank row))).
Proof.
  intros Hh Hu Hd Hin.
  assert (Hne : rows t <> []) by (destruct (rows t); [contradiction|discriminate]).
  rewrite (select_eq _ _ _ Hh). simpl.
  assert (Hc : contains (Some (Country row)) (map Country (rows t)) = true)
    by (apply contains_Some, in_map, Hin).
  simpl in Hc. rewrite Hc. simpl.
  rewrite (lookup_rank_unique t row Hh Hu Hin). simpl.
  rewrite (dense_ranks_max t Hd Hne). simpl.
  destruct (Rank row <=? 10); [reflexivity|].
  destruct (Rank row >=? Z.of_nat (length (rows t)) - 10); reflexivity.
Qed.

Lemma country_selection_ranks (t : DataFrame) (row : Row) :
  dense_ranks t -> rank_consistent t -> In row (rows t) ->
  let n := length (rows t) in
  map Rank (if Rank row <=? 10 then top10_rows (rows t)
            else if Rank row >=? Z.of_nat n - 10 then bottom10_rows (rows t)
                 else neighbor_rows (rows t) (Rank row))
  = if Rank row <=? 10
    then ranks_down_from (Z.of_nat (Nat.min 10 n)) (Nat.min 10 n)
    else if Rank row >=? Z.of_nat n - 10 then ranks_down_from (Z.of_nat n) 10
         else Z_interval (Rank row - 5) 10.
Proof.
  intros Hd Hc Hin n.
  pose proof (dense_ranks_range t row Hd Hin) as Hrange. fold n in Hrange.
  destruct (Rank row <=? 10) eqn:E1.
  - apply top10_rows_ranks; assumption.
  - destruct (Rank row >=? Z.of_nat n - 10) eqn:E2.
    + rewrite (bottom10_rows_ranks t Hd Hc). fold n.
      replace (Nat.min 10 n) with 10%nat by lia. reflexivity.
    + apply neighbor_rows_ranks; [exact Hd|lia|fold n; lia].
Qed.

(** X2. In top-ten mode, on an indicator table where a better rank means
    a strictly larger Value, the selection is the rows of rank
    min(10, N) down to 1 in that order; the countries table lists them
    from rank 1 up and the chart frame keeps them from rank min(10, N)
    down. *)
Theorem top_ten_shown_ranks (t : DataFrame) (mode : string) (sc : option string) :
  indicator_header t = true -> dense_ranks t -> rank_consistent t ->
  mode = "top10" \/ (mode = "country" /\ sc = None) ->
  let m := Nat.min 10 (length (rows t)) in
  exists res listed drawn,
    select t mode sc = Ok res /\
    map Rank (rows res) = ranks_down_from (Z.of_nat m) m /\
    list_frame t mode sc = Ok listed /\
    map Rank (rows listed) = ranks_1_to m /\
    chart_frame t mode sc = Ok drawn /\
    map Rank (rows drawn) = ranks_down_from (Z.of_nat m) m.
Proof.
  intros Hh Hd Hc Hm m.
  assert (Hsel : select t mode sc = Ok (with_rows t (top10_rows (rows t)))).
  { rewrite (select_eq _ _ _ Hh). destruct Hm as [-> | [-> ->]]; reflexivity. }
  destruct (frames_of_selection t mode sc _ Hh Hsel) as [Hl Hch].
  pose proof (top10_rows_ranks t Hd Hc) as Hr. simpl in Hr. fold m in Hr.
  do 3 eexists.
  split; [exact Hsel|]. split; [exact Hr|].
  split; [exact Hl|]. split; [|split; [exact Hch|]]; simpl.
  - apply sort_by_rank_ranks; [|apply ranks_1_to_sorted].
    rewrite Hr. apply Permutation_sym, ranks_1_to_down.
  - apply sort_by_rank_desc_ranks; [|apply ranks_down_from_sorted].
    rewrite Hr. apply Permutation_refl.
Qed.

Lemma top_ten_shown_ranks_witness :
  let m := Nat.min 10 (length (rows (sample_table 50))) in
  exists res listed drawn,
    select (sample_table 50) "top10" (Some "Atlantis") = Ok res /\
    map Rank (rows res) = ranks_down_from (Z.of_nat m) m /\
    list_frame (sample_table 50) "top10" (Some "Atlantis") = Ok listed /\
    map Rank (rows listed) = ranks_1_to m /\
    chart_frame (sample_table 50) "top10" (Some "Atlantis") = Ok drawn /\
    map Rank (rows drawn) = ranks_down_from (Z.of_nat m) m.
Proof.
  apply (top_ten_shown_ranks (sample_table 50) "top10" (Some "Atlantis")).
  - reflexivity.
  - apply sample_table_dense.
  - apply sample_table_consistent.
  - left. reflexivity.
Defined.

(** X3. Around a country of rank r, on an indicator table of N rows where
    a better rank means a strictly larger Value, the countries table
    lists the ranks 1..min(10, N) when r <= 10, the ranks N-9..N when
    r > 10 and r >= N-10, and the ranks r-5..r+4 otherwise, in ascending
    order; the chart frame holds the same ranks in descending order. *)
Theorem around_country_shown_ranks (t : DataFrame) (row : Row) :
  indicator_header t = true -> unique_countries t -> dense_ranks t ->
  rank_consistent t -> In row (rows t) ->
  exists listed drawn,
    list_frame t "country" (Some (Country row)) = Ok listed /\
    map Rank (rows listed) = shown_ranks (length (rows t)) (Rank row) /\
    chart_frame t "country" (Some (Country row)) = Ok drawn /\
    map Rank (rows drawn) = rev (shown_ranks (length (rows t)) (Rank row)).
Proof.
  intros Hh Hu Hd Hc Hin.
  pose proof (select_country_eq t row Hh Hu Hd Hin) as Hsel.
  destruct (frames_of_selection t _ _ _ Hh Hsel) as [Hl Hch].
  pose proof (country_selection_ranks t row Hd Hc Hin) as Hr. simpl in Hr.
  pose proof (dense_ranks_range t row Hd Hin) as Hrange.
  set (n := length (rows t)) in *.
  assert (Hshown : Permutation
            (map Rank (if Rank row <=? 10 then top10_rows (rows t)
                       else if Rank row >=? Z.of_nat n - 10
                            then bottom10_rows (rows t)
                            else neighbor_rows (rows t) (Rank row)))
            (shown_ranks n (Rank row)) /\
          StronglySorted Z.le (shown_ranks n (Rank row))).
  { rewrite Hr. unfold shown_ranks.
    destruct (Rank row <=? 10) eqn:E1.
    - split; [apply Permutation_sym, ranks_1_to_down|apply ranks_1_to_sorted].
    - destruct (Rank row >=? Z.of_nat n - 10) eqn:E2.
      + split; [|apply Z_interval_sorted].
        replace (Z.of_nat n - 9) with (Z.of_nat n - Z.of_nat 10 + 1) by lia.
        apply ranks_down_interval.
      + split; [apply Permutation_refl|apply Z_interval_sorted]. }
  destruct Hshown as [Hperm Hsorted].
  do 2 eexists. split; [exact Hl|]. split; [|split; [exact Hch|]]; simpl.
  - apply sort_by_rank_ranks; assumption.
  - apply sort_by_rank_desc_ranks.
    + eapply Permutation_trans; [exact Hperm|apply Permutation_rev].
    + apply StronglySorted_rev, Hsorted.
Qed.

Lemma around_country_shown_ranks_witness :
  exists listed drawn,
    list_frame (sample_table 50) "country" (Some (Country (sample_row 45)))
    = Ok listed /\
    map Rank (rows listed)
    = shown_ranks (length (rows (sample_table 50))) (Rank (sample_row 45)) /\
    chart_frame (sample_table 50) "country" (Some (Country (sample_row 45)))
    = Ok drawn /\
    map Rank (rows drawn)
    = rev (shown_ranks (length (rows (sample_table 50))) (Rank (sample_row 45))).
Proof.
  apply (around_country_shown_ranks (sample_table 50) (sample_row 45)).
  - reflexivity.
  - exact sample_table_unique.
  - apply sample_table_dense.
  - apply sample_table_consistent.
  - apply sample_table_In. lia.
Defined.

(** X4. On such a table the selection around a country contains the
    country's own row, except when the country's rank is exactly N-10
    with N > 20: then the ten smallest Values are shown and the selected
    country is not among them. *)
Theorem selected_country_shown_iff (t : DataFrame) (row : Row) (res : DataFrame) :
  indicator_header t = true -> unique_countries t -> dense_ranks t ->
  rank_consistent t -> In row (rows t) ->
  select t "country" (Some (Country row)) = Ok res ->
  (In row (rows res) <->
   ~ (10 < Rank row /\ Rank row = Z.of_nat (length (rows t)) - 10)).
Proof.
  intros Hh Hu Hd Hc Hin Hsel.
  assert (Hmem : In row (rows res) <-> In (Rank row) (map Rank (rows res))).
  { split; [apply in_map|]. intros H. apply in_map_iff in H.
    destruct H as (x & Hx & Hxin).
    assert (x = row); [|subst; exact Hxin].
    apply (NoDup_map_injective Rank (rows t));
      [apply dense_ranks_NoDup, Hd| |exact Hin|exact Hx].
    apply (select_rows_In _ _ _ _ _ Hsel), Hxin. }
  rewrite Hmem. clear Hmem.
  rewrite (select_country_eq t row Hh Hu Hd Hin) in Hsel.
  injection Hsel as <-. unfold with_rows. cbn [rows].
  pose proof (country_selection_ranks t row Hd Hc Hin) as Hr. cbv zeta in Hr.
  rewrite Hr. clear Hr.
  pose proof (dense_ranks_range t row Hd Hin) as Hrange.
  destruct (Rank row <=? 10) eqn:E1.
  - rewrite in_ranks_down_from.
    destruct (Nat.min_spec 10 (length (rows t))) as [[? ->]|[? ->]]; lia.
  - destruct (Rank row >=? Z.of_nat (length (rows t)) - 10) eqn:E2.
    + rewrite in_ranks_down_from. lia.
    + rewrite in_Z_interval. lia.
Qed.

Lemma selected_country_shown_iff_witness :
  In (sample_row 40)
     (rows (with_rows (sample_table 50) (bottom10_rows (rows (sample_table 50)))))
  <-> ~ (10 < Rank (sample_row 40) /\
         Rank (sample_row 40) = Z.of_nat (length (rows (sample_table 50))) - 10).
Proof.
  apply (selected_country_shown_iff (sample_table 50) (sample_row 40)
           (with_rows (sample_table 50) (bottom10_rows (rows (sample_table 50))))).
  - reflexivity.
  - exact sample_table_unique.
  - apply sample_table_dense.
  - apply sample_table_consistent.
  - apply sample_table_In. lia.
  - vm_compute. reflexivity.
Defined.

(** The sample table at rank 40 of 50: the country is selected and is not
    in its own chart. *)
Example select_rank_40 :
  option_map (map Rank) (match select (sample_table 50) "country"
                                 (Some (Country (sample_row 40))) with
                         | Ok res => Some (rows res)
                         | Err _ => None
                         end)
  = Some [50; 49; 48; 47; 46; 45; 44; 43; 42; 41].
Proof. vm_compute. reflexivity. Qed.

(** X5. On a frame whose columns, where present, hold cells of the data
    model's types (a numeric Value and Rank, a string Country) but whose
    header may lack any of them, every exception of the selector is the
    [KeyError] of a column among Country, Value and Rank that the header
    lacks; in top-ten mode it raises exactly when the Value column is
    missing, and outside top-ten mode a frame without a Country column
    always makes it raise.  Frames with a Value column of another type
    are outside this statement. *)
Theorem select_raises_only_missing_columns (t : DataFrame) (mode : string)
  (sc : option string) :
  (forall e, select t mode sc = Err e ->
     exists c, (c = ColCountry \/ c = ColValue \/ c = ColRank) /\
               e = KeyError (col_name c) /\ has_column t (col_name c) = false) /\
  (show_top10 mode sc = true ->
     (has_column t "Value" = false -> select t mode sc = Err (KeyError "Value")) /\
     (has_column t "Value" = true -> exists res, select t mode sc = Ok res)) /\
  (show_top10 mode sc = false -> has_column t "Country" = false ->
     select t mode sc = Err (KeyError "Country")).
Proof.
  assert (Hmiss : forall c e', require_column t c = Err e' ->
            e' = KeyError (col_name c) /\ has_column t (col_name c) = false).
  { intros c e'. unfold require_column.
    destruct (has_column t (col_name c)); [discriminate|].
    intros [= <-]. split; reflexivity. }
  split; [|split].
  - intros e.
    assert (Htop : (let* top := nlargest 10 ColValue t in
                    sort_values ColValue true top) = Err e ->
              exists c, (c = ColCountry \/ c = ColValue \/ c = ColRank) /\
                e = KeyError (col_name c) /\ has_column t (col_name c) = false).
    { destruct (require_column t ColValue) as [[]|e'] eqn:HV.
      - rewrite (top10_frame t HV). discriminate.
      - rewrite (top10_frame_err t e' HV). intros [= <-].
        exists ColValue. split; [auto|]. apply Hmiss, HV. }
    assert (Hbot : (let* bottom := nsmallest 10 ColValue t in
                    sort_values ColValue true bottom) = Err e ->
              exists c, (c = ColCountry \/ c = ColValue \/ c = ColRank) /\
                e = KeyError (col_name c) /\ has_column t (col_name c) = false).
    { destruct (require_column t ColValue) as [[]|e'] eqn:HV.
      - rewrite (bottom10_frame t HV). discriminate.
      - rewrite (bottom10_frame_err t e' HV). intros [= <-].
        exists ColValue. split; [auto|]. apply Hmiss, HV. }
    unfold select.
    destruct (show_top10 mode sc); [exact Htop|].
    unfold getitem at 1.
    destruct (require_column t ColCountry) as [[]|e'] eqn:HC; simpl.
    2:{ intros [= <-]. exists ColCountry. split; [auto|]. apply Hmiss, HC. }
    destruct (contains sc (map Country (rows t))) eqn:Ec; simpl; [|discriminate].
    destruct sc as [c|]; [|discriminate Ec].
    destruct (require_column t ColRank) as [[]|e'] eqn:HR.
    2:{ unfold lookup_rank, getitem, loc_mask. rewrite HC, HR. simpl.
        intros [= <-]. exists ColRank. split; [auto|]. apply Hmiss, HR. }
    destruct (lookup_rank_member t c HC HR Ec) as (row & _ & _ & ->). simpl.
    unfold getitem at 1. rewrite HR. simpl.
    destruct (Rank row <=? 10); [exact Htop|].
    destruct (ge_minus _ _ _); [exact Hbot|].
    rewrite (neighbors_frame t (Rank row) HR). discriminate.
  - intros Htop. unfold select. rewrite Htop. split; intros HV.
    + apply top10_frame_err. unfold require_column. simpl. rewrite HV. reflexivity.
    + eexists. apply top10_frame. unfold require_column. simpl. rewrite HV.
      reflexivity.
  - intros Htop HC. unfold select, getitem, require_column. rewrite Htop.
    simpl. rewrite HC. reflexivity.
Qed.

Lemma select_raises_only_missing_columns_witness :
  (forall e, select {| columns := ["Country"; "Rank"]; rows := rows (sample_table 50) |}
               "top10" None = Err e ->
     exists c, (c = ColCountry \/ c = ColValue \/ c = ColRank) /\
               e = KeyError (col_name c) /\
               has_column {| columns := ["Country"; "Rank"];
                             rows := rows (sample_table 50) |} (col_name c) = false) /\
  (show_top10 "top10" None = true ->
     (has_column {| columns := ["Country"; "Rank"]; rows := rows (sample_table 50) |}
        "Value" = false ->
      select {| columns := ["Country"; "Rank"]; rows := rows (sample_table 50) |}
        "top10" None = Err (KeyError "Value")) /\
     (has_column {| columns := ["Country"; "Rank"]; rows := rows (sample_table 50) |}
        "Value" = true ->
      exists res,
        select {| columns := ["Country"; "Rank"]; rows := rows (sample_table 50) |}
          "top10" None = Ok res)) /\
  (show_top10 "top10" None = false ->
   has_column {| columns := ["Country"; "Rank"]; rows := rows (sample_table 50) |}
     "Country" = false ->
   select {| columns := ["Country"; "Rank"]; rows := rows (sample_table 50) |}
     "top10" None = Err (KeyError "Country")).
Proof.
  exact (select_raises_only_missing_columns
           {| columns := ["Country"; "Rank"]; rows := rows (sample_table 50) |}
           "top10" None).
Defined.

(* ================================================================== *)
(** ** The callbacks and the stored tables                             *)
(* ================================================================== *)

Lemma new_frame_from_run (f : DataFrame -> result DataFrame) (l : ref) (h : heap) :
  new_frame_from f l h =
    match h !! l with
    | None => (Err ReferenceError, h)
    | Some df =>
        match f df with
        | Err e => (Err e, h)
        | Ok r => (Ok (fresh (dom h)), <[fresh (dom h) := r]> h)
        end
    end.
Proof.
  unfold new_frame_from, bindM, deref.
  destruct (h !! l) as [df|]; [|reflexivity].
  destruct (f df); reflexivity.
Qed.

Lemma keeps_ret {A : Type} (h0 : heap) (a : A) : keeps h0 (ret a).
Proof. intros h r h' Hsub [= <- <-]. exact Hsub. Qed.

Lemma keeps_raise {A : Type} (h0 : heap) (e : exn) : keeps h0 (raise (A := A) e).
Proof. intros h r h' Hsub [= <- <-]. exact Hsub. Qed.

Lemma keeps_lift {A : Type} (h0 : heap) (x : result A) : keeps h0 (lift x).
Proof. destruct x; [apply keeps_ret|apply keeps_raise]. Qed.

Lemma keeps_bind {A B : Type} (h0 : heap) (m : M A) (k : A -> M B) :
  keeps h0 m -> (forall a, keeps h0 (k a)) -> keeps h0 (bindM m k).
Proof.
  intros Hm Hk h r h' Hsub. unfold bindM.
  destruct (m h) as [[a|e] h1] eqn:E.
  - intros H. apply (Hk a h1 r h'); [|exact H]. apply (Hm h _ _ Hsub E).
  - intros [= <- <-]. apply (Hm h _ _ Hsub E).
Qed.

Lemma keeps_alloc (h0 : heap) (df : DataFrame) : keeps h0 (alloc df).
Proof.
  intros h r h' Hsub [= <- <-]. etrans; [exact Hsub|apply alloc_extends].
Qed.

Lemma keeps_deref (h0 : heap) (l : ref) : keeps h0 (deref l).
Proof.
  intros h r h' Hsub. unfold deref.
  destruct (h !! l); intros [= <- <-]; exact Hsub.
Qed.

Lemma keeps_dict_getitem {V : Type} (h0 : heap) (d : gmap string V) (key : string) :
  keeps h0 (dict_getitem d key).
Proof.
  unfold dict_getitem. destruct (d !! key); [apply keeps_ret|apply keeps_raise].
Qed.

Lemma keeps_new_frame_from (h0 : heap) (f : DataFrame -> result DataFrame) (l : ref) :
  keeps h0 (new_frame_from f l).
Proof.
  unfold new_frame_from. apply keeps_bind; [apply keeps_deref|]. intros df.
  apply keeps_bind; [apply keeps_lift|]. intros r. apply keeps_alloc.
Qed.

Lemma keeps_return_chart_data (h0 : heap) (indicator_dfs : gmap string ref)
  (indicator_name mode : string) (sc : option string) :
  keeps h0 (return_chart_data indicator_dfs indicator_name mode sc).
Proof.
  unfold return_chart_data. apply keeps_bind; [apply keeps_dict_getitem|].
  intros stored. apply keeps_bind.
  - unfold copy. apply keeps_bind; [apply keeps_deref|]. intros df.
    apply keeps_alloc.
  - intros l. apply keeps_new_frame_from.
Qed.

Lemma keeps_mapM {A B : Type} (h0 : heap) (f : A -> M B) (l : list A) :
  (forall a, keeps h0 (f a)) -> keeps h0 (mapM f l).
Proof.
  intros Hf. induction l as [|x l IH]; simpl; [apply keeps_ret|].
  apply keeps_bind; [apply Hf|]. intros y.
  apply keeps_bind; [exact IH|]. intros ys. apply keeps_ret.
Qed.

Lemma keeps_update_table (h0 : heap) (indicator_dfs : gmap string ref)
  (m : string) (country : option string) (id : comp_id) :
  keeps h0 (update_table indicator_dfs m country id).
Proof.
  unfold update_table.
  apply keeps_bind; [apply keeps_return_chart_data|]. intros chart.
  apply keeps_bind; [apply keeps_new_frame_from|]. intros df_chart.
  apply keeps_bind; [apply keeps_deref|]. intros df.
  apply keeps_bind; [apply keeps_lift|]. intros shown. apply keeps_ret.
Qed.

(** The chart frame is a new object, so a drawing code that writes only to
    the frame it is handed leaves every older object alone. *)
Lemma keeps_create_bar_chart {Figure : Type}
  (draw : string -> option string -> ref -> M Figure) (h0 : heap)
  (indicator_dfs : gmap string ref) (indicator_name mode : string)
  (sc : option string) :
  touches_only_its_frame draw ->
  keeps h0 (create_bar_chart draw indicator_dfs indicator_name mode sc).
Proof.
  intros Hdraw h r h' Hsub. unfold create_bar_chart, bindM.
  destruct (return_chart_data indicator_dfs indicator_name mode sc h)
    as [[chart|e] h1] eqn:E1.
  2:{ intros [= <- <-]. apply (keeps_return_chart_data h0 _ _ _ _ h _ _ Hsub E1). }
  pose proof (keeps_return_chart_data h0 _ _ _ _ h _ _ Hsub E1) as Hsub1.
  rewrite new_frame_from_run.
  destruct (h1 !! chart) as [df|]; [|intros [= <- <-]; exact Hsub1].
  destruct (sort_values ColRank false df) as [sorted|e];
    [|intros [= <- <-]; exact Hsub1].
  intros Hd. apply map_subseteq_spec. intros i x Hi.
  pose proof (lookup_weaken _ _ _ _ Hi Hsub1) as Hi1.
  assert (Hne : i <> fresh (dom h1)).
  { intros ->. rewrite fresh_not_live in Hi1. discriminate. }
  apply (Hdraw _ _ _ _ _ _ Hd i x Hne).
  rewrite lookup_insert_ne by (intros Heq; apply Hne; symmetry; exact Heq).
  exact Hi1.
Qed.

Lemma keeps_update_all {Figure : Type}
  (draw : string -> option string -> ref -> M Figure) (h0 : heap)
  (indicator_dfs : gmap string ref) (mode : string) (country : option string)
  (chart_ids table_ids : list comp_id) :
  touches_only_its_frame draw ->
  keeps h0 (update_all draw indicator_dfs mode country chart_ids table_ids).
Proof.
  intros Hdraw. unfold update_all.
  apply keeps_bind.
  - apply keeps_mapM. intros id. rewrite create_chart_is_bar_chart.
    apply keeps_create_bar_chart, Hdraw.
  - intros figs. apply keeps_bind.
    + apply keeps_mapM. intros id. apply keeps_update_table.
    + intros tables. apply keeps_ret.
Qed.

Lemma sample_draw_touches_only : touches_only_its_frame sample_draw.
Proof.
  intros ind sc l h r h' Hd l' df Hne Hl'. unfold sample_draw in Hd.
  destruct (h !! l) as [d|]; injection Hd as <- <-; [|exact Hl'].
  rewrite lookup_insert_ne by (intros Heq; apply Hne; symmetry; exact Heq).
  exact Hl'.
Qed.

(** X6. Whatever the inputs of the callback and whether it returns or
    raises, [update_all] leaves every object that was live before it as
    it was, the stored tables among them, provided the drawing code
    writes only to the chart frame it is handed: the selections and the
    chart frames are new objects. *)
Theorem update_all_keeps_store {Figure : Type}
  (draw : string -> option string -> ref -> M Figure)
  (indicator_dfs : gmap string ref) (mode : string) (country : option string)
  (chart_ids table_ids : list comp_id) (h : heap) r (h' : heap) :
  touches_only_its_frame draw ->
  update_all draw indicator_dfs mode country chart_ids table_ids h = (r, h') ->
  h ⊆ h' /\
  forall name stored t,
    indicator_dfs !! name = Some stored -> h !! stored = Some t ->
    h' !! stored = Some t.
Proof.
  intros Hdraw Hrun.
  assert (Hsub : h ⊆ h').
  { apply (keeps_update_all draw h indicator_dfs mode country chart_ids
             table_ids Hdraw h r h'); [reflexivity|exact Hrun]. }
  split; [exact Hsub|].
  intros name stored t _ Ht. eapply lookup_weaken; eassumption.
Qed.

Lemma update_all_keeps_store_witness :
  let h : heap := {[ 1%positive := sample_table 50 ]} in
  let out := update_all sample_draw {[ "GDP" := 1%positive ]} "country"
               (Some (Country (sample_row 30)))
               [mkId "chart" "GDP"] [mkId "countries-table" "GDP"] h in
  h ⊆ snd out /\
  forall name stored t,
    ({[ "GDP" := 1%positive ]} : gmap string ref) !! name = Some stored ->
    h !! stored = Some t -> snd out !! stored = Some t.
Proof.
  intros h out.
  apply (update_all_keeps_store sample_draw {[ "GDP" := 1%positive ]} "country"
           (Some (Country (sample_row 30)))
           [mkId "chart" "GDP"] [mkId "countries-table" "GDP"] h (fst out)).
  - exact sample_draw_touches_only.
  - subst out. apply surjective_pairing.
Defined.

Lemma mapM_length {A B : Type} (f : A -> M B) (l : list A) (h : heap)
  (ys : list B) (h' : heap) :
  mapM f l h = (Ok ys, h') -> length ys = length l.
Proof.
  revert h ys h'. induction l as [|x l IH]; intros h ys h'; simpl.
  - intros [= <- _]. reflexivity.
  - unfold bindM. destruct (f x h) as [[y|e] h1]; [|discriminate].
    destruct (mapM f l h1) as [[ys'|e] h2] eqn:E; [|discriminate].
    intros [= <- _]. simpl. f_equal. apply (IH _ _ _ E).
Qed.

(** One pass of the table loop that returns: the records are those of the
    selection from the stored table, in rank order. *)
Lemma update_table_ok_inv (indicator_dfs : gmap string ref) (m : string)
  (country : option string) (id : comp_id) (h : heap)
  (data : list (list (string * cell))) (style : list style_rule) (h' : heap)
  (stored : ref) (t : DataFrame) :
  update_table indicator_dfs m country id h = (Ok (data, style), h') ->
  indicator_dfs !! indicator id = Some stored -> h !! stored = Some t ->
  exists res,
    select t m country = Ok res /\
    data = map list_record (stable_sort (row_before ColRank true) (rows res)).
Proof.
  intros Hrun Hd Hh. revert Hrun. unfold update_table, bindM.
  rewrite (return_chart_data_run _ _ _ _ _ _ _ Hd Hh).
  destruct (select t m country) as [res|e]; [|discriminate].
  rewrite new_frame_from_run, lookup_insert_eq.
  destruct (require_column res ColRank) as [[]|e] eqn:HR.
  2:{ unfold sort_values. rewrite HR. discriminate. }
  rewrite (sort_values_ok _ _ _ HR).
  unfold deref. rewrite lookup_insert_eq.
  destruct (require_column
              (with_rows res (stable_sort (row_before ColRank true) (rows res)))
              ColCountry_with_rank) as [[]|e] eqn:HW.
  2:{ unfold getitem_list. simpl. rewrite HW. discriminate. }
  rewrite (getitem_list_single _ _ HW). simpl.
  intros [= <- _ _]. exists res. split; reflexivity.
Qed.

Lemma update_table_style (indicator_dfs : gmap string ref) (m : string)
  (country : option string) (id : comp_id) (h : heap)
  (data : list (list (string * cell))) (style : list style_rule) (h' : heap) :
  update_table indicator_dfs m country id h = (Ok (data, style), h') ->
  style = match country with
          | Some c =>
              if truthy country then
                [ {| filter_query :=
                       String.append "{Country_with_rank} contains "
                         (String.append dquote (String.append c dquote));
                     fontWeight := "bold";
                     color := "black" |} ]
              else []
          | None => []
          end.
Proof.
  unfold update_table, bindM.
  destruct (return_chart_data _ _ _ _ h) as [[chart|e] h1]; [|discriminate].
  destruct (new_frame_from _ chart h1) as [[df_chart|e] h2]; [|discriminate].
  destruct (deref df_chart h2) as [[df|e] h3]; [|discriminate].
  destruct (lift _ h3) as [[shown|e] h4]; [|discriminate].
  intros [= _ <- _]. reflexivity.
Qed.

Lemma mapM_update_table_inv (indicator_dfs : gmap string ref) (m : string)
  (country : option string) (h0 : heap) (table_ids : list comp_id) :
  forall (h : heap) tables (h' : heap),
    h0 ⊆ h ->
    mapM (update_table indicator_dfs m country) table_ids h = (Ok tables, h') ->
    Forall2
      (fun id table =>
         (forall stored t,
            indicator_dfs !! indicator id = Some stored -> h0 !! stored = Some t ->
            exists res,
              select t m country = Ok res /\
              fst table
              = map list_record (stable_sort (row_before ColRank true) (rows res))) /\
         snd table
         = match country with
           | Some c =>
               if truthy country then
                 [ {| filter_query :=
                        String.append "{Country_with_rank} contains "
                          (String.append dquote (String.append c dquote));
                      fontWeight := "bold";
                      color := "black" |} ]
               else []
           | None => []
           end)
      table_ids tables.
Proof.
  induction table_ids as [|id ids IH]; intros h tables h' Hsub; simpl.
  - intros [= <- _]. constructor.
  - unfold bindM.
    destruct (update_table indicator_dfs m country id h) as [[[data style]|e] h1]
      eqn:E1; [|discriminate].
    destruct (mapM (update_table indicator_dfs m country) ids h1)
      as [[tables'|e] h2] eqn:E2; [|discriminate].
    intros [= <- _]. constructor.
    + split.
      * intros stored t Hd Ht. simpl.
        apply (update_table_ok_inv _ _ _ _ _ _ _ _ stored t E1 Hd).
        eapply lookup_weaken; eassumption.
      * simpl. apply (update_table_style _ _ _ _ _ _ _ _ E1).
    + apply (IH h1 tables' h2); [|exact E2].
      apply (keeps_update_table h0 _ _ _ _ h _ _ Hsub E1).
Qed.

Lemma sort_by_rank_listing (l : list Row) :
  Permutation (stable_sort (row_before ColRank true) l) l /\
  StronglySorted Z.le (map Rank (stable_sort (row_before ColRank true) l)).
Proof.
  split; [apply stable_sort_perm|].
  apply StronglySorted_map.
  eapply StronglySorted_weaken;
    [| apply (stable_sort_sorted _ (Rank_before_total true)
                (Rank_before_trans true))].
  intros a b H. simpl in H. lia.
Qed.


(** The records of the tables, up to the order of rows of equal rank. *)
Lemma update_tables_listed (indicator_dfs : gmap string ref) (m : string)
  (country : option string) (h0 h : heap) (table_ids : list comp_id)
  tables (h' : heap) :
  h0 ⊆ h ->
  mapM (update_table indicator_dfs m country) table_ids h = (Ok tables, h') ->
  Forall2
    (fun id data =>
       forall stored t,
         indicator_dfs !! indicator id = Some stored -> h0 !! stored = Some t ->
         exists res listed,
           select t m country = Ok res /\
           Permutation listed (rows res) /\
           StronglySorted Z.le (map Rank listed) /\
           data = map list_record listed)
    table_ids (map fst tables) /\
  Forall
    (fun style =>
       style = match country with
               | Some c =>
                   if truthy country then
                     [ {| filter_query :=
                            String.append "{Country_with_rank} contains "
                              (String.append dquote (String.append c dquote));
                          fontWeight := "bold";
                          color := "black" |} ]
                   else []
               | None => []
               end)
    (map snd tables).
Proof.
  intros Hsub Hrun.
  pose proof (mapM_update_table_inv _ _ _ h0 table_ids h tables h' Hsub Hrun) as HF.
  clear -HF. induction HF as [|id table ids tables [H1 H2] HF IH]; simpl.
  - split; constructor.
  - destruct IH as [IH1 IH2]. split; constructor; try assumption.
    intros stored t Hd Ht. destruct (H1 stored t Hd Ht) as (res & Hsel & Hdata).
    exists res, (stable_sort (row_before ColRank true) (rows res)).
    destruct (sort_by_rank_listing (rows res)) as [Hp Hs].
    split; [exact Hsel|]. split; [exact Hp|]. split; [exact Hs|exact Hdata].
Qed.

(** X7. When [update_all] returns, it returns one figure per chart id and
    one list of records and one style per table id; the records of a
    table are the Country_with_rank of the rows of the selection (for the
    normalized mode) from the table stored before the call, put in
    ascending order of Rank, whatever the drawing of the charts did to
    its own frames; and every style is the same: one bold rule quoting
    the country when a non-empty country is selected, none otherwise. *)
Theorem update_all_outputs {Figure : Type}
  (draw : string -> option string -> ref -> M Figure)
  (indicator_dfs : gmap string ref) (mode : string) (country : option string)
  (chart_ids table_ids : list comp_id) (h : heap)
  (figs : list Figure) (datas : list (list (list (string * cell))))
  (styles : list (list style_rule)) (h' : heap) :
  touches_only_its_frame draw ->
  update_all draw indicator_dfs mode country chart_ids table_ids h
  = (Ok (figs, datas, styles), h') ->
  length figs = length chart_ids /\
  length datas = length table_ids /\
  length styles = length table_ids /\
  Forall2
    (fun id data =>
       forall stored t,
         indicator_dfs !! indicator id = Some stored -> h !! stored = Some t ->
         exists res listed,
           select t (current_mode mode country) country = Ok res /\
           Permutation listed (rows res) /\
           StronglySorted Z.le (map Rank listed) /\
           data = map list_record listed)
    table_ids datas /\
  Forall
    (fun style =>
       style = match country with
               | Some c =>
                   if truthy country then
                     [ {| filter_query :=
                            String.append "{Country_with_rank} contains "
                              (String.append dquote (String.append c dquote));
                          fontWeight := "bold";
                          color := "black" |} ]
                   else []
               | None => []
               end)
    styles.
Proof.
  intros Hdraw. unfold update_all, bindM.
  destruct (mapM (fun id => create_chart draw indicator_dfs (indicator id)
                              (current_mode mode country) country) chart_ids h)
    as [[figs'|e] h1] eqn:E1; [|discriminate].
  destruct (mapM (update_table indicator_dfs (current_mode mode country) country)
              table_ids h1) as [[tables|e] h2] eqn:E2; [|discriminate].
  intros [= <- <- <- _].
  assert (Hsub : h ⊆ h1).
  { refine (keeps_mapM h _ chart_ids _ h _ _ _ E1); [|reflexivity].
    intros id. rewrite create_chart_is_bar_chart.
    apply keeps_create_bar_chart, Hdraw. }
  pose proof (mapM_length _ _ _ _ _ E2) as Hlen.
  split; [apply (mapM_length _ _ _ _ _ E1)|].
  split; [rewrite length_map; exact Hlen|].
  split; [rewrite length_map; exact Hlen|].
  apply (update_tables_listed _ _ _ h h1 table_ids tables h2 Hsub E2).
Qed.

Lemma update_all_outputs_witness :
  let h : heap := {[ 1%positive := sample_table 50 ]} in
  let dfs : gmap string ref := {[ "GDP" := 1%positive ]} in
  match update_all sample_draw dfs "country" (Some (Country (sample_row 30)))
          [mkId "chart" "GDP"] [mkId "countries-table" "GDP"] h with
  | (Ok (figs, datas, styles), h') =>
      length figs = 1%nat /\
      length datas = 1%nat /\
      length styles = 1%nat /\
      Forall2
        (fun id data =>
           forall stored t,
             dfs !! indicator id = Some stored -> h !! stored = Some t ->
             exists res listed,
               select t (current_mode "country" (Some (Country (sample_row 30))))
                 (Some (Country (sample_row 30))) = Ok res /\
               Permutation listed (rows res) /\
               StronglySorted Z.le (map Rank listed) /\
               data = map list_record listed)
        [mkId "countries-table" "GDP"] datas /\
      Forall
        (fun style =>
           style = [ {| filter_query :=
                          String.append "{Country_with_rank} contains "
                            (String.append dquote
                               (String.append (Country (sample_row 30)) dquote));
                        fontWeight := "bold";
                        color := "black" |} ])
        styles
  | (Err _, _) => False
  end.
Proof.
  intros h dfs.
  destruct (update_all sample_draw dfs "country" (Some (Country (sample_row 30)))
              [mkId "chart" "GDP"] [mkId "countries-table" "GDP"] h)
    as [[[[figs datas] styles]|e] h'] eqn:E.
  - exact (update_all_outputs sample_draw dfs "country"
             (Some (Country (sample_row 30)))
             [mkId "chart" "GDP"] [mkId "countries-table" "GDP"] h
             figs datas styles h' sample_draw_touches_only E).
  - vm_compute in E. discriminate E.
Defined.

Lemma select_length_le_10 (t : DataFrame) (mode : string) (sc : option string)
  (res : DataFrame) :
  dense_ranks t -> select t mode sc = Ok res -> (length (rows res) <= 10)%nat.
Proof.
  intros Hd Hsel. apply select_ok_inv in Hsel.
  assert (Htop : res = with_rows t (top10_rows (rows t)) ->
                 (length (rows res) <= 10)%nat).
  { intros ->. simpl. rewrite top10_rows_length. lia. }
  destruct (show_top10 mode sc); [exact (Htop Hsel)|].
  destruct (negb (contains sc (map Country (rows t)))).
  { subst res. simpl. lia. }
  destruct Hsel as (r & _ & Hsel).
  destruct (r <=? 10); [exact (Htop Hsel)|].
  destruct (ge_minus _ _ _); subst res; simpl.
  - rewrite bottom10_rows_length. lia.
  - apply neighbor_rows_at_most_10, dense_ranks_NoDup, Hd.
Qed.

Lemma select_empty_iff (t : DataFrame) (mode : string) (sc : option string)
  (res : DataFrame) :
  indicator_header t = true -> select t mode sc = Ok res ->
  (rows res = [] <->
   rows t = [] \/
   (show_top10 mode sc = false /\ contains sc (map Country (rows t)) = false)).
Proof.
  intros Hh. rewrite (select_eq _ _ _ Hh).
  assert (Hlen : forall l : list Row, l = [] <-> length l = 0%nat).
  { intros l. destruct l; simpl; split; congruence. }
  assert (Htop : top10_rows (rows t) = [] <-> rows t = []).
  { rewrite !Hlen, top10_rows_length. lia. }
  assert (Hbot : bottom10_rows (rows t) = [] <-> rows t = []).
  { rewrite !Hlen, bottom10_rows_length. lia. }
  destruct (show_top10 mode sc) eqn:Etop.
  { intros [= <-]. simpl. rewrite Htop. split; [auto|].
    intros [H|[H _]]; [exact H|discriminate H]. }
  destruct (contains sc (map Country (rows t))) eqn:Ec; simpl.
  2:{ intros [= <-]. simpl. split; auto. }
  destruct sc as [c|]; [|discriminate Ec].
  destruct (lookup_rank_member t c (require_column_ok t _ Hh)
              (require_column_ok t _ Hh) Ec) as (row & Hrow & Hc & ->).
  simpl.
  assert (Hne : rows t <> []) by (destruct (rows t); [contradiction|discriminate]).
  assert (Hrhs : ~ (rows t = [] \/ false = false /\ true = false)).
  { intros [H|[_ H]]; [exact (Hne H)|discriminate H]. }
  destruct (Rank row <=? 10).
  { intros [= <-]. simpl. rewrite Htop. tauto. }
  destruct (ge_minus _ _ _).
  { intros [= <-]. simpl. rewrite Hbot. tauto. }
  intros [= <-]. simpl. split; [|tauto].
  intros H. exfalso.
  assert (Hn : In row (neighbor_rows (rows t) (Rank row)))
    by (apply neighbor_rows_In; split; [exact Hrow|lia]).
  rewrite H in Hn. contradiction.
Qed.

(** X8. [create_countries_list] raises the [KeyError] of the indicator
    name, and allocates nothing, when the indicator has no table; on a
    stored indicator table it returns the Country_with_rank records of
    the selection in ascending rank order, at most ten of them, and
    leaves every older object as it was. *)
Theorem create_countries_list_lists_selection (indicator_dfs : gmap string ref)
  (indicator_name mode : string) (sc : option string) (h : heap) :
  (indicator_dfs !! indicator_name = None ->
   create_countries_list indicator_dfs indicator_name mode sc h
   = (Err (KeyError indicator_name), h)) /\
  (forall stored t,
     indicator_dfs !! indicator_name = Some stored -> h !! stored = Some t ->
     indicator_header t = true -> dense_ranks t ->
     exists res listed (h' : heap),
       select t mode sc = Ok res /\
       Permutation listed (rows res) /\
       StronglySorted Z.le (map Rank listed) /\
       (length listed <= 10)%nat /\
       create_countries_list indicator_dfs indicator_name mode sc h
       = (Ok (map list_record listed), h') /\
       h ⊆ h').
Proof.
  split.
  - intros Hd. unfold create_countries_list, bindM.
    rewrite (return_chart_data_unknown _ _ _ _ _ Hd). reflexivity.
  - intros stored t Hd Ht Hh Hdense.
    destruct (select_total t mode sc Hh) as [res Hsel].
    destruct (create_countries_list_run _ _ _ _ _ _ _ _ Hd Ht Hh Hsel)
      as (h' & Hrun & Hsub & _).
    exists res, (stable_sort (row_before ColRank true) (rows res)), h'.
    split; [exact Hsel|]. split; [apply stable_sort_perm|].
    split.
    { apply StronglySorted_map.
      eapply StronglySorted_weaken;
        [| apply (stable_sort_sorted _ (Rank_before_total true)
                    (Rank_before_trans true))].
      intros a b H. simpl in H. lia. }
    split; [rewrite stable_sort_length;
            apply (select_length_le_10 _ _ _ _ Hdense Hsel)|].
    split; [exact Hrun|exact Hsub].
Qed.

Lemma create_countries_list_lists_selection_witness :
  let h : heap := {[ 1%positive := sample_table 50 ]} in
  let dfs : gmap string ref := {[ "GDP" := 1%positive ]} in
  (dfs !! "GDP" = None ->
   create_countries_list dfs "GDP" "country" (Some (Country (sample_row 30))) h
   = (Err (KeyError "GDP"), h)) /\
  (forall stored t,
     dfs !! "GDP" = Some stored -> h !! stored = Some t ->
     indicator_header t = true -> dense_ranks t ->
     exists res listed (h' : heap),
       select t "country" (Some (Country (sample_row 30))) = Ok res /\
       Permutation listed (rows res) /\
       StronglySorted Z.le (map Rank listed) /\
       (length listed <= 10)%nat /\
       create_countries_list dfs "GDP" "country" (Some (Country (sample_row 30))) h
       = (Ok (map list_record listed), h') /\
       h ⊆ h').
Proof.
  intros h dfs.
  exact (create_countries_list_lists_selection dfs "GDP" "country"
           (Some (Country (sample_row 30))) h).
Defined.

(** The stored table of the sample store meets the hypotheses above, and
    an indicator without a table makes the list raise. *)
Example create_countries_list_sample :
  fst (create_countries_list {[ "GDP" := 1%positive ]} "GDP" "country"
         (Some (Country (sample_row 30))) {[ 1%positive := sample_table 50 ]})
  = Ok (map (fun i => list_record (sample_row i)) (seq 25 10)) /\
  fst (create_countries_list {[ "GDP" := 1%positive ]} "Inflation" "top10" None
         {[ 1%positive := sample_table 50 ]})
  = Err (KeyError "Inflation").
Proof. split; vm_compute; reflexivity. Qed.

(** X9. The plot of [create_bar_chart] gets the whitesmoke background of
    an empty box exactly when the table has no rows or the call is
    outside top-ten mode with a selected country that is not in the
    table; in every other case the background is white. *)
Theorem empty_box_iff_no_data (t : DataFrame) (mode : string)
  (sc : option string) (drawn : DataFrame) :
  indicator_header t = true ->
  chart_frame t mode sc = Ok drawn ->
  (plot_bgcolor drawn = "whitesmoke" <->
   rows t = [] \/
   (show_top10 mode sc = false /\ contains sc (map Country (rows t)) = false)) /\
  (plot_bgcolor drawn = "whitesmoke" \/ plot_bgcolor drawn = "white").
Proof.
  intros Hh Hch.
  destruct (select_total t mode sc Hh) as [res Hsel].
  destruct (frames_of_selection t mode sc res Hh Hsel) as [_ Hch'].
  rewrite Hch' in Hch. injection Hch as <-.
  rewrite <- (select_empty_iff t mode sc res Hh Hsel).
  unfold plot_bgcolor. simpl. rewrite stable_sort_length.
  destruct (rows res) as [|x l]; simpl.
  - split; [|left; reflexivity]. split; reflexivity.
  - split; [|right; reflexivity]. split; discriminate.
Qed.

Lemma empty_box_iff_no_data_witness :
  (plot_bgcolor (empty_frame indicator_columns) = "whitesmoke" <->
   rows (sample_table 50) = [] \/
   (show_top10 "country" (Some "Atlantis") = false /\
    contains (Some "Atlantis") (map Country (rows (sample_table 50))) = false)) /\
  (plot_bgcolor (empty_frame indicator_columns) = "whitesmoke" \/
   plot_bgcolor (empty_frame indicator_columns) = "white").
Proof.
  apply (empty_box_iff_no_data (sample_table 50) "country" (Some "Atlantis")
           (empty_frame indicator_columns)).
  - reflexivity.
  - vm_compute. reflexivity.
Defined.

(* ================================================================== *)
(** ** The loader                                                      *)
(* ================================================================== *)

Lemma require_rank_of_group (df : DataSheet) (ind : string) :
  require_column (group_of df ind) ColRank
  = if existsb (String.eqb "Rank") (sheet_columns df) then Ok tt
    else Err (KeyError "Rank").
Proof. reflexivity. Qed.

Lemma build_tables_ok (df : DataSheet) (inds : list string)
  (acc : gmap string DataFrame) :
  existsb (String.eqb "Rank") (sheet_columns df) = true ->
  exists T,
    build_tables df inds acc = Ok T /\
    forall ind,
      (In ind inds ->
       T !! ind = Some (with_rows (group_of df ind)
                          (stable_sort (row_before ColRank true)
                             (rows (group_of df ind))))) /\
      (~ In ind inds -> T !! ind = acc !! ind).
Proof.
  intros HR.
  assert (Hsort : forall ind,
            sort_values ColRank true (group_of df ind)
            = Ok (with_rows (group_of df ind)
                    (stable_sort (row_before ColRank true) (rows (group_of df ind))))).
  { intros ind. apply sort_values_ok. rewrite require_rank_of_group, HR.
    reflexivity. }
  revert acc. induction inds as [|i inds IH]; intros acc; simpl.
  - exists acc. split; [reflexivity|]. intros ind. split; [contradiction|reflexivity].
  - rewrite Hsort. simpl.
    destruct (IH (<[i := with_rows (group_of df i)
                          (stable_sort (row_before ColRank true)
                             (rows (group_of df i)))]> acc)) as (T & HT & Hlook).
    exists T. split; [exact HT|]. intros ind. split.
    + intros [->|Hin].
      * destruct (in_dec string_dec ind inds) as [Hin|Hnin].
        -- apply Hlook, Hin.
        -- rewrite (proj2 (Hlook ind) Hnin). apply lookup_insert_eq.
      * apply Hlook, Hin.
    + intros Hnin.
      rewrite (proj2 (Hlook ind)) by (intros H; apply Hnin; right; exact H).
      apply lookup_insert_ne. intros ->. apply Hnin. left. reflexivity.
Qed.

Lemma build_tables_missing_rank (df : DataSheet) (inds : list string)
  (acc : gmap string DataFrame) :
  existsb (String.eqb "Rank") (sheet_columns df) = false -> inds <> [] ->
  build_tables df inds acc = Err (KeyError "Rank").
Proof.
  intros HR Hne. destruct inds as [|i inds]; [congruence|]. simpl.
  unfold sort_values. rewrite require_rank_of_group, HR. reflexivity.
Qed.

Lemma In_remove_dups (l : list string) (x : string) :
  In x (remove_dups l) <-> In x l.
Proof. rewrite <- !list_elem_of_In. apply elem_of_remove_dups. Qed.

Lemma group_of_nonempty (df : DataSheet) (ind : string) :
  In ind (map Indicator (sheet_rows df)) <-> rows (group_of df ind) <> [].
Proof.
  simpl. split.
  - intros H. apply in_map_iff in H. destruct H as (d & Hd & Hin).
    assert (Hf : In d (List.filter (fun d => String.eqb (Indicator d) ind)
                         (sheet_rows df))).
    { apply filter_In. split; [exact Hin|]. rewrite Hd. apply String.eqb_refl. }
    destruct (List.filter _ (sheet_rows df)); [contradiction|discriminate].
  - intros H.
    destruct (List.filter (fun d => String.eqb (Indicator d) ind) (sheet_rows df))
      as [|d l] eqn:E; [contradiction|].
    assert (Hf : In d (List.filter (fun d => String.eqb (Indicator d) ind)
                         (sheet_rows df))) by (rewrite E; left; reflexivity).
    apply filter_In in Hf. destruct Hf as [Hin Heq].
    apply String.eqb_eq in Heq. rewrite <- Heq. apply in_map, Hin.
Qed.

(** X10. From a sheet with the columns Indicator, Country and Rank the
    loader builds a table for each indicator of the sheet and for no
    other name; the table has the header of the sheet and exactly the
    rows of its indicator, at least one, in ascending order of Rank. *)
Theorem load_indicator_dfs_tables (df : DataSheet) :
  existsb (String.eqb "Indicator") (sheet_columns df) = true ->
  existsb (String.eqb "Country") (sheet_columns df) = true ->
  existsb (String.eqb "Rank") (sheet_columns df) = true ->
  exists T,
    load_indicator_dfs df = Ok T /\
    forall ind,
      (~ In ind (map Indicator (sheet_rows df)) -> T !! ind = None) /\
      (In ind (map Indicator (sheet_rows df)) ->
       exists t,
         T !! ind = Some t /\
         columns t = sheet_columns df /\
         Permutation (rows t) (rows (group_of df ind)) /\
         StronglySorted Z.le (map Rank (rows t)) /\
         rows t <> []).
Proof.
  intros HI HC HR. unfold load_indicator_dfs, sheet_require.
  rewrite HI, HC. simpl.
  destruct (build_tables_ok df (remove_dups (map Indicator (sheet_rows df))) ∅ HR)
    as (T & HT & Hlook).
  exists T. split; [exact HT|]. intros ind. split.
  - intros Hnin. rewrite (proj2 (Hlook ind)); [apply lookup_empty|].
    rewrite In_remove_dups. exact Hnin.
  - intros Hin. eexists. split; [apply Hlook, In_remove_dups, Hin|].
    split; [reflexivity|]. split; [apply stable_sort_perm|]. split.
    + apply StronglySorted_map.
      eapply StronglySorted_weaken;
        [| apply (stable_sort_sorted _ (Rank_before_total true)
                    (Rank_before_trans true))].
      intros a b H. simpl in H. lia.
    + apply group_of_nonempty in Hin. intros H. apply Hin.
      apply (f_equal (@length Row)) in H.
      unfold with_rows in H. cbn [rows] in H. rewrite stable_sort_length in H.
      destruct (rows (group_of df ind)); [reflexivity|discriminate H].
Qed.

Lemma load_indicator_dfs_tables_witness :
  exists T,
    load_indicator_dfs sample_sheet = Ok T /\
    forall ind,
      (~ In ind (map Indicator (sheet_rows sample_sheet)) -> T !! ind = None) /\
      (In ind (map Indicator (sheet_rows sample_sheet)) ->
       exists t,
         T !! ind = Some t /\
         columns t = sheet_columns sample_sheet /\
         Permutation (rows t) (rows (group_of sample_sheet ind)) /\
         StronglySorted Z.le (map Rank (rows t)) /\
         rows t <> []).
Proof.
  apply (load_indicator_dfs_tables sample_sheet); reflexivity.
Defined.

(** X11. When the rows of an indicator in the sheet carry the ranks 1..N,
    each once and in any order, the table the loader stores for it lists
    the ranks 1, 2, ..., N in that order: it is sorted by rank at rest
    and its ranks are dense; it has the four columns of the data model
    when the sheet has them, and its countries are unique when they are
    in the sheet. *)
Theorem load_establishes_invariants (df : DataSheet) (T : gmap string DataFrame)
  (ind : string) (t : DataFrame) :
  load_indicator_dfs df = Ok T -> T !! ind = Some t ->
  Permutation (map Rank (rows (group_of df ind)))
    (ranks_1_to (length (rows (group_of df ind)))) ->
  map Rank (rows t) = ranks_1_to (length (rows t)) /\
  dense_ranks t /\
  indicator_header t = indicator_header (group_of df ind) /\
  (unique_countries (group_of df ind) -> unique_countries t) /\
  (rank_consistent (group_of df ind) -> rank_consistent t).
Proof.
  intros Hload HT Hdense.
  unfold load_indicator_dfs, sheet_require in Hload.
  destruct (existsb (String.eqb "Indicator") (sheet_columns df)); [|discriminate].
  destruct (existsb (String.eqb "Country") (sheet_columns df)); [|discriminate].
  simpl in Hload.
  destruct (existsb (String.eqb "Rank") (sheet_columns df)) eqn:HR.
  2:{ destruct (remove_dups (map Indicator (sheet_rows df))) as [|i l] eqn:E.
      - simpl in Hload. injection Hload as <-. rewrite lookup_empty in HT.
        discriminate.
      - rewrite build_tables_missing_rank in Hload by (assumption || discriminate).
        discriminate. }
  destruct (build_tables_ok df (remove_dups (map Indicator (sheet_rows df))) ∅ HR)
    as (T' & HT' & Hlook).
  rewrite HT' in Hload. injection Hload as ->.
  destruct (in_dec string_dec ind (remove_dups (map Indicator (sheet_rows df))))
    as [Hin|Hnin].
  2:{ rewrite (proj2 (Hlook ind) Hnin), lookup_empty in HT. discriminate. }
  rewrite (proj1 (Hlook ind) Hin) in HT. injection HT as <-.
  set (g := rows (group_of df ind)) in *.
  set (s := stable_sort (row_before ColRank true) g).
  assert (Hperm : Permutation s g) by apply stable_sort_perm.
  assert (Hlen : length s = length g) by apply stable_sort_length.
  assert (Hranks : map Rank s = ranks_1_to (length s)).
  { rewrite Hlen. apply sort_by_rank_ranks; [exact Hdense|apply ranks_1_to_sorted]. }
  split; [exact Hranks|].
  split.
  { change (Permutation (map Rank s) (ranks_1_to (length s))).
    rewrite Hranks. apply Permutation_refl. }
  split; [reflexivity|]. split.
  - intros Hu. change (List.NoDup (map Country s)).
    eapply Permutation_NoDup; [|exact Hu].
    apply Permutation_map, Permutation_sym, Hperm.
  - intros Hc a b Ha Hb. change (In a s) in Ha. change (In b s) in Hb.
    apply Hc; (eapply Permutation_in; [exact Hperm|assumption]).
Qed.

Lemma sample_sheet_loads :
  exists T, load_indicator_dfs sample_sheet = Ok T /\
            T !! "GDP" = Some (sample_table 50).
Proof.
  destruct (load_indicator_dfs sample_sheet) as [T|e] eqn:E.
  - exists T. split; [reflexivity|].
    revert E. unfold load_indicator_dfs. simpl.
    intros [= <-]. rewrite lookup_insert_ne by discriminate.
    rewrite lookup_insert_eq. vm_compute. reflexivity.
  - revert E. unfold load_indicator_dfs. simpl. discriminate.
Qed.

Lemma load_establishes_invariants_witness :
  match load_indicator_dfs sample_sheet with
  | Ok T =>
      match T !! "GDP" with
      | Some t =>
          map Rank (rows t) = ranks_1_to (length (rows t)) /\
          dense_ranks t /\
          indicator_header t = indicator_header (group_of sample_sheet "GDP") /\
          (unique_countries (group_of sample_sheet "GDP") -> unique_countries t) /\
          (rank_consistent (group_of sample_sheet "GDP") -> rank_consistent t)
      | None => False
      end
  | Err _ => False
  end.
Proof.
  destruct (load_indicator_dfs sample_sheet) as [T|e] eqn:E.
  - destruct (T !! "GDP") as [t|] eqn:Et.
    + apply (load_establishes_invariants sample_sheet T "GDP" t E Et).
      apply Permutation_sym. exact (Permutation_rev (ranks_1_to 50)).
    + destruct sample_sheet_loads as (T' & HT' & Hgdp).
      rewrite E in HT'. injection HT' as <-. rewrite Et in Hgdp. discriminate.
  - destruct sample_sheet_loads as (T' & HT' & _).
    rewrite E in HT'. discriminate.
Defined.

Lemma remove_dups_nonempty (l : list string) : l <> [] -> remove_dups l <> [].
Proof.
  destruct l as [|x l]; [congruence|]. intros _ H.
  assert (Hin : In x (remove_dups (x :: l)))
    by (apply In_remove_dups; left; reflexivity).
  rewrite H in Hin. contradiction.
Qed.

(** X12. The loader raises the [KeyError] of the first column it misses,
    Indicator, then Country, then Rank; the Rank column is only read when
    the sheet has a row, so an empty sheet with the first two columns
    loads as an empty dict. *)
Theorem load_indicator_dfs_errors (df : DataSheet) :
  (existsb (String.eqb "Indicator") (sheet_columns df) = false ->
   load_indicator_dfs df = Err (KeyError "Indicator")) /\
  (existsb (String.eqb "Indicator") (sheet_columns df) = true ->
   existsb (String.eqb "Country") (sheet_columns df) = false ->
   load_indicator_dfs df = Err (KeyError "Country")) /\
  (existsb (String.eqb "Indicator") (sheet_columns df) = true ->
   existsb (String.eqb "Country") (sheet_columns df) = true ->
   (sheet_rows df = [] -> load_indicator_dfs df = Ok ∅) /\
   (sheet_rows df <> [] ->
    existsb (String.eqb "Rank") (sheet_columns df) = false ->
    load_indicator_dfs df = Err (KeyError "Rank"))).
Proof.
  unfold load_indicator_dfs, sheet_require. split; [|split].
  - intros ->. reflexivity.
  - intros -> ->. reflexivity.
  - intros -> ->. simpl. split.
    + intros ->. reflexivity.
    + intros Hne HR. apply build_tables_missing_rank; [exact HR|].
      apply remove_dups_nonempty. destruct (sheet_rows df); [congruence|discriminate].
Qed.

Lemma load_indicator_dfs_errors_witness :
  (existsb (String.eqb "Indicator") ["Indicator"; "Country"] = false ->
   load_indicator_dfs (mkDataSheet ["Indicator"; "Country"] (sheet_rows sample_sheet))
   = Err (KeyError "Indicator")) /\
  (existsb (String.eqb "Indicator") ["Indicator"; "Country"] = true ->
   existsb (String.eqb "Country") ["Indicator"; "Country"] = false ->
   load_indicator_dfs (mkDataSheet ["Indicator"; "Country"] (sheet_rows sample_sheet))
   = Err (KeyError "Country")) /\
  (existsb (String.eqb "Indicator") ["Indicator"; "Country"] = true ->
   existsb (String.eqb "Country") ["Indicator"; "Country"] = true ->
   (sheet_rows sample_sheet = [] ->
    load_indicator_dfs (mkDataSheet ["Indicator"; "Country"] (sheet_rows sample_sheet))
    = Ok ∅) /\
   (sheet_rows sample_sheet <> [] ->
    existsb (String.eqb "Rank") ["Indicator"; "Country"] = false ->
    load_indicator_dfs (mkDataSheet ["Indicator"; "Country"] (sheet_rows sample_sheet))
    = Err (KeyError "Rank"))).
Proof.
  exact (load_indicator_dfs_errors
           (mkDataSheet ["Indicator"; "Country"] (sheet_rows sample_sheet))).
Defined.

(* ================================================================== *)
(** ** The highlighted bar                                             *)
(* ================================================================== *)

Lemma group_colors_differ (group : string) :
  fst (group_colors group) <> snd (group_colors group).
Proof.
  unfold group_colors.
  destruct (String.eqb group "Economy"); [discriminate|].
  destruct (String.eqb group "People"); [discriminate|].
  destruct (String.eqb group "Geography"); discriminate.
Qed.

(** X13. In the chart drawn for a selected country of an indicator table
    with unique countries, whatever the mode, the bars are coloured one
    per row of the chart frame, and the bar at a position has the
    highlight colour of the indicator's group exactly when the row at
    that position is the selected country's row: at most one bar is
    highlighted, and none when the country is not in the chart. *)
Theorem selected_bar_is_highlighted (t : DataFrame) (mode group : string)
  (row : Row) (drawn : DataFrame) :
  indicator_header t = true -> unique_countries t -> In row (rows t) ->
  chart_frame t mode (Some (Country row)) = Ok drawn ->
  exists colors,
    bar_colors group (Some (Country row)) drawn = Ok colors /\
    length colors = length (rows drawn) /\
    forall i,
      nth_error colors i = Some (fst (group_colors group)) <->
      nth_error (rows drawn) i = Some row.
Proof.
  intros Hh Hu Hin Hch.
  destruct (select_total t mode (Some (Country row)) Hh) as [res Hsel].
  destruct (frames_of_selection t mode _ res Hh Hsel) as [_ Hch'].
  rewrite Hch' in Hch. injection Hch as <-.
  destruct (callers_columns t mode _ res Hh Hsel) as [Hcols _].
  set (l := stable_sort (row_before ColRank false) (rows res)).
  assert (Hl : forall x, In x l -> In x (rows t)).
  { intros x Hx. apply stable_sort_In in Hx.
    apply (select_rows_In _ _ _ _ _ Hsel), Hx. }
  unfold bar_colors, getitem.
  rewrite (require_column_columns _ res) by reflexivity. rewrite Hcols. simpl.
  fold l. eexists. split; [reflexivity|].
  unfold eq_scalar. rewrite !map_map. split; [apply length_map|].
  intros i. rewrite nth_error_map.
  destruct (nth_error l i) as [x|] eqn:Ex; simpl; [|split; discriminate].
  assert (Hx : In x (rows t)) by (apply Hl; eapply nth_error_In; exact Ex).
  destruct (String.eqb (Country x) (Country row)) eqn:Ec.
  - apply String.eqb_eq in Ec.
    assert (x = row) by (apply (NoDup_map_injective Country (rows t)); assumption).
    subst x. split; reflexivity.
  - apply String.eqb_neq in Ec. split.
    + intros [= H]. exfalso. apply (group_colors_differ group). symmetry. exact H.
    + intros [= ->]. congruence.
Qed.

Lemma selected_bar_is_highlighted_witness :
  exists colors,
    bar_colors "Economy" (Some (Country (sample_row 30)))
      (with_rows (sample_table 50)
         (stable_sort (row_before ColRank false)
            (neighbor_rows (rows (sample_table 50)) 30))) = Ok colors /\
    length colors
    = length (rows (with_rows (sample_table 50)
                      (stable_sort (row_before ColRank false)
                         (neighbor_rows (rows (sample_table 50)) 30)))) /\
    forall i,
      nth_error colors i = Some (fst (group_colors "Economy")) <->
      nth_error (rows (with_rows (sample_table 50)
                         (stable_sort (row_before ColRank false)
                            (neighbor_rows (rows (sample_table 50)) 30)))) i
      = Some (sample_row 30).
Proof.
  apply (selected_bar_is_highlighted (sample_table 50) "country" "Economy"
           (sample_row 30)).
  - reflexivity.
  - exact sample_table_unique.
  - apply sample_table_In. lia.
  - vm_compute. reflexivity.
Defined.

(* ================================================================== *)
(** ** The mode the callback passes on                                 *)
(* ================================================================== *)







(** The callback in country mode with an empty selection, on the sample
    store: the chart has ten bars and the table lists the top ten. *)
Example update_all_empty_selection :
  fst (update_all sample_draw {[ "GDP" := 1%positive ]} "country"
         (Some EmptyString) [mkId "chart" "GDP"] [mkId "countries-table" "GDP"]
         {[ 1%positive := sample_table 50 ]})
  = Ok ([10%nat],
        [map (fun i => list_record (sample_row i)) (seq 1 10)],
        [[]]).
Proof. vm_compute. reflexivity. Qed.
